(** * mcp-http-bridge: the STDIO-to-HTTP bridge of bin/mcp-http-bridge.mjs

    A shallow embedding of the bridge's request path: header composition,
    [makeRequest] with its session handling, [reinitializeAndRetry] and the
    readline ['line'] handler, followed by the properties of the
    specification that concern them.

    Conventions of the embedding.
    - A JavaScript string is a [string]; its characters stand for code
      units below 256.
    - A JSON number is an integer ([Z]); fractions and exponents are outside
      the model.
    - [undefined] is [None] of an [option]; [null] is [JNull].
    - The runtime built-ins [JSON.parse] and [JSON.stringify] and the
      upstream HTTP server are parameters of the development.
    - One inbound message is followed from its line to the settling of its
      promise; interleaving of several in-flight messages is not modelled.
    - [debug] writes to stderr only and is left out. *)

From Stdlib Require Import ZArith Ascii String DecimalString List Lia Bool.
From stdpp Require Import base option list strings gmap.

Set Warnings "-register-all".

Open Scope string_scope.
Open Scope list_scope.
Open Scope Z_scope.

(** ** JavaScript strings *)

Module JS.

(** White space as [String.prototype.trim] sees it, among code units below
    256: TAB, LF, VT, FF, CR, SPACE and NBSP. *)
Definition isWhiteSpace (c : ascii) : bool :=
  match N_of_ascii c with
  | 9%N | 10%N | 11%N | 12%N | 13%N | 32%N | 160%N => true
  | _ => false
  end.

Fixpoint trimStart (s : string) : string :=
  match s with
  | EmptyString => EmptyString
  | String c s' => if isWhiteSpace c then trimStart s' else s
  end.

Fixpoint trimEnd (s : string) : string :=
  match s with
  | EmptyString => EmptyString
  | String c s' =>
      match trimEnd s' with
      | EmptyString => if isWhiteSpace c then EmptyString else String c EmptyString
      | t => String c t
      end
  end.

(** [s.trim()] *)
Definition trim (s : string) : string := trimEnd (trimStart s).

(** [!s] for a string [s]: only the empty string is falsy. *)
Definition isEmpty (s : string) : bool :=
  match s with EmptyString => true | _ => false end.

(** [s.substring(0, n)] *)
Fixpoint substring0 (n : nat) (s : string) : string :=
  match n, s with
  | S n', String c s' => String c (substring0 n' s')
  | _, _ => EmptyString
  end.

Definition LF : ascii := "010"%char.
Definition DQUOTE : ascii := "034"%char.

(** [s.split('\n')]: never empty, [''.split('\n')] is ['']. *)
Fixpoint split_nl (s : string) : list string :=
  match s with
  | EmptyString => [EmptyString]
  | String c s' =>
      if Ascii.eqb c LF then EmptyString :: split_nl s'
      else match split_nl s' with
           | l :: ls => String c l :: ls
           | [] => [String c EmptyString]
           end
  end.

(** [lines.join('\n')] *)
Fixpoint join_nl (lines : list string) : string :=
  match lines with
  | [] => EmptyString
  | [l] => l
  | l :: ls => l +:+ String LF (join_nl ls)
  end.

(** No line feed occurs in [s]. *)
Fixpoint single_line (s : string) : bool :=
  match s with
  | EmptyString => true
  | String c s' => negb (Ascii.eqb c LF) && single_line s'
  end.

(** [Buffer.byteLength(s)] in UTF-8: a code unit below 128 takes one byte,
    the others (below 256) two. *)
Fixpoint byteLength (s : string) : Z :=
  match s with
  | EmptyString => 0
  | String c s' => (if (N_of_ascii c <? 128)%N then 1 else 2) + byteLength s'
  end.

(** Decimal rendering of an integer, as a template literal prints it. *)
Definition showZ (n : Z) : string := NilZero.string_of_int (Z.to_int n).

(** [s.startsWith(c)], [s.includes(c)] and [s.indexOf(c)] for a one-character
    string [c]; [indexOf] gives [None] for -1. *)
Definition startsWithChar (c : ascii) (s : string) : bool :=
  match s with
  | String d _ => Ascii.eqb d c
  | EmptyString => false
  end.

Fixpoint hasChar (c : ascii) (s : string) : bool :=
  match s with
  | EmptyString => false
  | String d s' => Ascii.eqb d c || hasChar c s'
  end.

Fixpoint indexOfChar (c : ascii) (s : string) : option nat :=
  match s with
  | EmptyString => None
  | String d s' =>
      if Ascii.eqb d c then Some O
      else match indexOfChar c s' with
           | Some i => Some (S i)
           | None => None
           end
  end.

(** The first character, if any, is not white space. *)
Definition headOk (s : string) : bool :=
  match s with
  | String c _ => negb (isWhiteSpace c)
  | EmptyString => true
  end.

(** [s.substring(n)] *)
Fixpoint substringFrom (n : nat) (s : string) : string :=
  match n, s with
  | O, _ => s
  | S n', String _ s' => substringFrom n' s'
  | S _, EmptyString => EmptyString
  end.

(** [s.split(c)] and [pieces.join(c)] for a one-character string [c]. *)
Fixpoint splitChar (c : ascii) (s : string) : list string :=
  match s with
  | EmptyString => [EmptyString]
  | String d s' =>
      if Ascii.eqb d c then EmptyString :: splitChar c s'
      else match splitChar c s' with
           | l :: ls => String d l :: ls
           | [] => [String d EmptyString]
           end
  end.

Fixpoint joinChar (c : ascii) (pieces : list string) : string :=
  match pieces with
  | [] => EmptyString
  | [l] => l
  | l :: ls => l +:+ String c (joinChar c ls)
  end.

End JS.

(** ** JSON values *)

Inductive json : Type :=
  | JNull
  | JBool (b : bool)
  | JNum (n : Z)
  | JStr (s : string)
  | JArr (items : list json)
  | JObj (members : list (string * json)).

(** A value read from a variable or a property: [None] is [undefined]. *)
Abbreviation jsval := (option json).

(** Own property of an object obtained from [JSON.parse] (its keys are
    distinct). Reading a property of a number, boolean, string or array
    under one of the names used here gives [undefined]; [null] is handled
    where it is read, since the access throws. *)
Fixpoint assoc (k : string) (members : list (string * json)) : jsval :=
  match members with
  | [] => None
  | (k', v) :: rest => if String.eqb k k' then Some v else assoc k rest
  end.

Definition prop (v : json) (k : string) : jsval :=
  match v with
  | JObj members => assoc k members
  | _ => None
  end.

(** [v.k] where [v] is known to be neither [undefined] nor [null], and
    [v?.k]. *)
Definition prop' (v : jsval) (k : string) : jsval :=
  match v with
  | Some j => prop j k
  | None => None
  end.

Definition optChain (v : jsval) (k : string) : jsval :=
  match v with
  | None | Some JNull => None
  | Some j => prop j k
  end.

(** JavaScript truthiness of a JSON value. *)
Definition truthy (v : json) : bool :=
  match v with
  | JNull => false
  | JBool b => b
  | JNum n => negb (n =? 0)
  | JStr s => negb (JS.isEmpty s)
  | JArr _ | JObj _ => true
  end.

Definition truthy' (v : jsval) : bool :=
  match v with Some j => truthy j | None => false end.

(** [ToString] of a JSON value, as string concatenation, template literals
    and [new Error(v)] apply it. An object prints as [[object Object]]; an
    array prints its elements joined by commas, [null] elements as nothing.
    The function is the code's on the values that [plain] below accepts.
    Outside them JavaScript differs: an integer of magnitude 2^53 or more
    is printed from its nearest double, in exponent form from 10^21 on,
    and printing an object that has a member [toString] of its own throws
    a [TypeError]. *)
Fixpoint ToString (v : json) : string :=
  match v with
  | JNull => "null"
  | JBool true => "true"
  | JBool false => "false"
  | JNum n => JS.showZ n
  | JStr s => s
  | JArr items =>
      (fix join (l : list json) : string :=
         match l with
         | [] => ""
         | x :: r =>
             let sx := match x with JNull => "" | _ => ToString x end in
             match r with
             | [] => sx
             | _ => sx +:+ "," +:+ join r
             end
         end) items
  | JObj _ => "[object Object]"
  end.


(** [ToString] of a value that may be [undefined]. *)
Definition ToString' (v : jsval) : string :=
  match v with Some j => ToString j | None => "undefined" end.

(** [a || b] *)
Definition js_or (a b : jsval) : jsval := if truthy' a then a else b.

(** [v === s] for a string literal [s]. *)
Definition strictEqStr (v : jsval) (s : string) : bool :=
  match v with
  | Some (JStr t) => String.eqb t s
  | _ => false
  end.

(** [v !== undefined] and [v === null] *)
Definition is_Some_b (v : jsval) : bool :=
  match v with Some _ => true | None => false end.

Definition is_null (v : jsval) : bool :=
  match v with Some JNull => true | _ => false end.

(** ** HTTP exchanges, errors and the process state *)

(** What [httpRequest(options, ...)] is given: the headers and the message
    whose [JSON.stringify] is written as the body. *)
Record http_request : Type := HttpRequest {
  req_headers : gmap string json;
  req_payload : json
}.

(** How one HTTP attempt ends: a response (['end'] fired, with the status,
    the headers and the whole body), an ['error'] event, or ['timeout']. *)
Inductive http_result : Type :=
  | Response (statusCode : Z) (headers : gmap string string) (data : string)
  | NetError (msg : string)
  | Timeout.

(** The [Error] objects that reject a promise; [errorCode] and [statusCode]
    are [undefined] on errors that makeRequest did not decorate. *)
Record js_error : Type := JsError {
  message : string;
  errorCode : jsval;
  statusCode : option Z
}.

(** A line on stdout: a forwarded upstream line ([console.log(line)]) or
    the object [sendError] serialises,
    [{jsonrpc: '2.0', error: {code, message}, id}]. *)
Inductive out_line : Type :=
  | Forwarded (line : string)
  | ErrorReply (code : json) (msg : string) (id : json).

(** How far the promise returned by [makeRequest] has got. *)
Inductive settled : Type :=
  | Resolved
  | Rejected (e : js_error)
  | Pending.

(** [JSON.parse(text)]: a value, or a [SyntaxError] with its message. *)
Inductive parse_result : Type :=
  | Parsed (v : json)
  | SyntaxError (msg : string).

Section Bridge.

(** The runtime. *)
Variable JSON_parse : string -> parse_result.
Variable JSON_stringify : json -> string.

(** Configuration: [BEARER_TOKEN] and the result of [parseCustomHeaders]. *)
Variable BEARER_TOKEN : option string.
Variable customHeaders : gmap string json.

(** The upstream server: a state machine answering each request. *)
Variable Server : Type.
Variable serve : Server -> http_request -> http_result * Server.

(** The module-level variables [sessionId] and [isInitialized], what has
    been written to stdout, the requests put on the wire, the number of
    calls of [reinitializeAndRetry], and the upstream's state. *)
Record world : Type := World {
  sessionId : option string;
  isInitialized : bool;
  stdout : list out_line;
  sent : list http_request;
  recoveries : nat;
  upstream : Server
}.

Definition console_log (line : string) (w : world) : world :=
  World (sessionId w) (isInitialized w) (stdout w ++ [Forwarded line])
        (sent w) (recoveries w) (upstream w).

(** [sendError(code, message, id = null)] *)
Definition sendError (code : json) (msg : string) (id : jsval) (w : world) : world :=
  let id := match id with Some v => v | None => JNull end in
  World (sessionId w) (isInitialized w) (stdout w ++ [ErrorReply code msg id])
        (sent w) (recoveries w) (upstream w).

Definition set_session (sid : option string) (init : bool) (w : world) : world :=
  World sid init (stdout w) (sent w) (recoveries w) (upstream w).

(** One exchange with the upstream, recorded in [sent]. *)
Definition exchange (rq : http_request) (w : world) : http_result * world :=
  let '(res, up) := serve (upstream w) rq in
  (res, World (sessionId w) (isInitialized w) (stdout w) (sent w ++ [rq])
              (recoveries w) up).

Definition enter_recovery (w : world) : world :=
  World (sessionId w) (isInitialized w) (stdout w) (sent w)
        (S (recoveries w)) (upstream w).

(** *** Headers (lines 135-145 and 168-179) *)

Definition baseHeaders : gmap string json :=
  let base : gmap string json := {[ "Content-Type" := JStr "application/json" ]} in
  match BEARER_TOKEN with
  | Some t => if JS.isEmpty t then base
              else <[ "Authorization" := JStr ("Bearer " +:+ t) ]> base
  | None => base
  end.

(** [{ ...baseHeaders, ...customHeaders }] *)
Definition defaultHeaders : gmap string json := customHeaders ∪ baseHeaders.

(** [sessionId] is truthy. *)
Definition session_held (w : world) : bool :=
  match sessionId w with
  | Some s => negb (JS.isEmpty s)
  | None => false
  end.

Definition isInitializeCall (jsonRequest : json) : bool :=
  strictEqStr (prop jsonRequest "method") "initialize".

(** The headers of lines 169-179, given the message and the value of
    [sessionId] when the request is built. *)
Definition request_headers (jsonRequest : json) (sid : option string)
    : gmap string json :=
  let body := JSON_stringify jsonRequest in
  let headers := <[ "Content-Length" := JNum (JS.byteLength body) ]> defaultHeaders in
  match sid with
  | Some sid =>
      if negb (isInitializeCall jsonRequest) && negb (JS.isEmpty sid)
      then <[ "Mcp-Session-Id" := JStr sid ]> headers
      else headers
  | None => headers
  end.

(** *** Response handling (lines 194-297) *)

(** [a || b] on header values. *)
Definition or_else (a b : option string) : option string :=
  match a with
  | Some s => if JS.isEmpty s then b else a
  | None => b
  end.

Definition sessionHeader (headers : gmap string string) : option string :=
  or_else (headers !! "mcp-session-id")
    (or_else (headers !! "Mcp-Session-Id") (headers !! "MCP-Session-ID")).

(** Lines 202-206: the session token is taken from an initialize call's
    response only. *)
Definition onResponse (isInitialize : bool) (headers : gmap string string)
    (w : world) : world :=
  match sessionHeader headers with
  | Some sid =>
      if negb (JS.isEmpty sid) && isInitialize
      then set_session (Some sid) true w
      else w
  | None => w
  end.

(** The session id an initialize call's response hands out, if any: the
    value of [sessionHeader] when it is truthy. *)
Definition issuedToken (headers : gmap string string) : option string :=
  match sessionHeader headers with
  | Some sid => if JS.isEmpty sid then None else Some sid
  | None => None
  end.

Definition parses (line : string) : bool :=
  match JSON_parse line with Parsed _ => true | SyntaxError _ => false end.

(** Lines 240-248: each line that [JSON.parse] accepts is printed as it
    is; the others are skipped. *)
Fixpoint forward_lines (lines : list string) (w : world) : world :=
  match lines with
  | [] => w
  | line :: rest =>
      forward_lines rest (if parses line then console_log line w else w)
  end.

(** Lines 227-250, the 2xx branch. *)
Definition onSuccess (data : string) (w : world) : world :=
  let trimmedData := JS.trim data in
  if JS.isEmpty trimmedData then w
  else
    let lines :=
      List.filter (fun line => negb (JS.isEmpty (JS.trim line)))
        (JS.split_nl trimmedData) in
    forward_lines lines w.

(** The lines of a success body as the specification names them: the
    trimmed body is split at line feeds, blank lines are discarded, and the
    lines that [JSON.parse] accepts remain, in their order. *)
Definition forwarded (data : string) : list string :=
  List.filter parses
    (List.filter (fun line => negb (JS.isEmpty (JS.trim line)))
       (JS.split_nl (JS.trim data))).

(** Lines 253-290: the message and the code of the error that rejects the
    promise on a status outside 2xx. The [try] body throws when
    [JSON.parse] rejects the body, or when the body is [null] and reading
    [errorResponse.code] raises a [TypeError]; both happen before any
    assignment, so the [catch] starts from the initial [errorMessage].
    On a body that is not [plain] the template literals of lines 267 and
    282 and [new Error] can throw as well, when they print an object that
    has a member [toString]; those runs are not followed here, and the
    statements about the message are made for [plain] bodies. *)
Definition errorFromBody (status : Z) (data : string) : jsval * jsval :=
  let errorMessage : jsval := Some (JStr ("HTTP " +:+ JS.showZ status)) in
  let errorCode : jsval := Some (JNum (-32000)) in
  let catch :=
    let preview := JS.trim (JS.substring0 200 data) in
    if JS.isEmpty preview then (errorMessage, errorCode)
    else (Some (JStr (ToString' errorMessage +:+ ": " +:+ preview)), errorCode) in
  match JSON_parse data with
  | SyntaxError _ => catch
  | Parsed JNull => catch
  | Parsed errorResponse =>
      let code := prop errorResponse "code" in
      let msg := prop errorResponse "message" in
      let err := prop errorResponse "error" in
      let '(errorMessage, errorCode) :=
        if truthy' code && truthy' msg then
          if strictEqStr code "rest_forbidden" then
            if status =? 401
            then (Some (JStr "Authentication failed: Invalid or expired JWT token"),
                  errorCode)
            else (Some (JStr ("Forbidden: " +:+ ToString' msg)), errorCode)
          else (msg, errorCode)
        else if truthy' err then
          (js_or (prop' err "message") errorMessage,
           if truthy' (prop' err "code") then prop' err "code" else errorCode)
        else if truthy' msg then (msg, errorCode)
        else (errorMessage, errorCode) in
      let dataStatus := optChain (prop errorResponse "data") "status" in
      if truthy' dataStatus
      then (Some (JStr (ToString' errorMessage +:+ " (HTTP " +:+ ToString' dataStatus +:+ ")")),
            errorCode)
      else (errorMessage, errorCode)
  end.

(** Lines 292-295: [new Error(errorMessage)] with its two extra fields. *)
Definition httpError (status : Z) (data : string) : js_error :=
  let '(errorMessage, errorCode) := errorFromBody status data in
  JsError (ToString' errorMessage) errorCode (Some status).

(** *** The error chain, as amended

    The chain of the specification with the two changes the code forces.
    A field counts as carried by the body when the body is a JSON value and
    the member read from it is truthy, the test the code applies. The raw
    body is appended only when no JSON value other than [null] was read
    from it. *)








(** [error.errorCode || -32000] *)
Definition codeOf (e : js_error) : json :=
  default (JNum (-32000)) (js_or (errorCode e) (Some (JNum (-32000)))).

(** *** Recovery (lines 319-356) *)

Definition initRequest : json :=
  JObj [ ("jsonrpc", JStr "2.0");
         ("method", JStr "initialize");
         ("params",
           JObj [ ("protocolVersion", JStr "2024-11-05");
                  ("clientInfo",
                    JObj [ ("name", JStr "mcp-http-bridge");
                           ("version", JStr "1.0.0") ]) ]);
         ("id", JNum 0) ].

(** The [catch] of [reinitializeAndRetry]: an error reply under the
    original request's id ([null] when it has none), then [throw error]. *)
Definition recoveryFailed (originalRequest : json) (error : js_error)
    (w : world) : settled * world :=
  (Rejected error,
   sendError (codeOf error)
     ("Session expired and re-initialization failed: " +:+ message error)
     (prop originalRequest "id") w).

(** [reinitializeAndRetry], over the [makeRequest] it calls. *)
Definition reinitializeAndRetry (makeRequest : json -> world -> settled * world)
    (originalRequest : json) (w : world) : settled * world :=
  match makeRequest initRequest w with
  | (Resolved, w1) =>
      match makeRequest originalRequest w1 with
      | (Resolved, w2) => (Resolved, w2)
      | (Rejected error, w2) => recoveryFailed originalRequest error w2
      | (Pending, w2) => (Pending, w2)
      end
  | (Rejected error, w1) => recoveryFailed originalRequest error w1
  | (Pending, w1) => (Pending, w1)
  end.

(** *** makeRequest (lines 164-314)

    [fuel] bounds the number of nested [makeRequest] calls followed; with
    none left the promise is still [Pending]. *)
Fixpoint makeRequest (fuel : nat) (jsonRequest : json) (w : world)
    : settled * world :=
  match fuel with
  | O => (Pending, w)
  | S fuel' =>
      let isInitialize := isInitializeCall jsonRequest in
      let rq := HttpRequest (request_headers jsonRequest (sessionId w)) jsonRequest in
      match exchange rq w with
      | (NetError msg, w) => (Rejected (JsError msg None None), w)
      | (Timeout, w) => (Rejected (JsError "Request timeout" None None), w)
      | (Response status headers data, w) =>
          let w := onResponse isInitialize headers w in
          if (status =? 404) && session_held w && negb isInitialize then
            let w := set_session None false w in
            reinitializeAndRetry (makeRequest fuel') jsonRequest (enter_recovery w)
          else if (200 <=? status) && (status <? 300) then
            (Resolved, onSuccess data w)
          else
            (Rejected (httpError status data), w)
      end
  end.

(** The error of an exchange that fails without starting a recovery: an
    ['error'] event, a timeout, or a status outside 2xx other than a 404
    answered to a non-initialize call under a held session. *)
Definition failsDirectly (jsonRequest : json) (held : bool) (res : http_result)
    : option js_error :=
  match res with
  | NetError msg => Some (JsError msg None None)
  | Timeout => Some (JsError "Request timeout" None None)
  | Response status _ data =>
      if (status =? 404) && held && negb (isInitializeCall jsonRequest) then None
      else if (200 <=? status) && (status <? 300) then None
      else Some (httpError status data)
  end.

(** *** The ['line'] handler (lines 361-413) *)

(** How the handling of one line ends: the handler and the promise it
    started are done, the handler threw, or the promise is still pending. *)
Inductive handled : Type :=
  | Done
  | Threw
  | Unsettled.

(** The text [Invalid Request: jsonrpc must be "2.0"]. *)
Definition invalidVersionMessage : string :=
  "Invalid Request: jsonrpc must be "
    +:+ String JS.DQUOTE ("2.0" +:+ String JS.DQUOTE EmptyString).

Definition rejectedRequest (jsonRequest : json) (error : js_error)
    (w : world) : world :=
  sendError (codeOf error)
    (if JS.isEmpty (message error) then "Request failed" else message error)
    (prop jsonRequest "id") w.

Definition on_line (fuel : nat) (line : string) (w : world) : handled * world :=
  if JS.isEmpty (JS.trim line) then (Done, w)
  else
    match JSON_parse line with
    | SyntaxError msg =>
        (Done, sendError (JNum (-32700)) ("Parse error: " +:+ msg) (Some JNull) w)
    | Parsed JNull => (Threw, w)
    | Parsed jsonRequest =>
        let id := prop jsonRequest "id" in
        let method := prop jsonRequest "method" in
        if negb (strictEqStr (prop jsonRequest "jsonrpc") "2.0") then
          (Done, sendError (JNum (-32600)) invalidVersionMessage id w)
        else if negb (is_Some_b id) && truthy' method then
          match makeRequest fuel jsonRequest w with
          | (Pending, w') => (Unsettled, w')
          | (_, w') => (Done, w')
          end
        else if truthy' method && is_Some_b id && negb (is_null id) then
          match makeRequest fuel jsonRequest w with
          | (Resolved, w') => (Done, w')
          | (Rejected error, w') => (Done, rejectedRequest jsonRequest error w')
          | (Pending, w') => (Unsettled, w')
          end
        else
          (Done, sendError (JNum (-32600)) "Invalid Request: missing method or id" id w)
    end.

(** *** parseCustomHeaders (lines 79-111) *)

(** [{...v}] for a value read by [JSON.parse]: the members of an object,
    the elements of an array under their indices, the characters of a
    string under theirs, and nothing for the other values. *)
Fixpoint indexed {A : Type} (i : nat) (l : list A) : list (string * A) :=
  match l with
  | [] => []
  | x :: r => (JS.showZ (Z.of_nat i), x) :: indexed (S i) r
  end.

Definition spread (v : json) : gmap string json :=
  match v with
  | JObj members => list_to_map members
  | JArr items => list_to_map (indexed 0 items)
  | JStr s =>
      list_to_map
        (indexed 0 (map (fun c => JStr (String c EmptyString))
                      (list_ascii_of_string s)))
  | _ => ∅
  end.

(** One turn of the loop of lines 99-108. The assignment
    [headers[key] = value] adds or replaces an own property, except under
    the key [__proto__], where assigning a string changes nothing. *)
Definition addPair (headers : gmap string json) (pair : string)
    : gmap string json :=
  match JS.indexOfChar ":" pair with
  | Some colonIndex =>
      if (0 <? colonIndex)%nat then
        let key := JS.trim (JS.substring0 colonIndex pair) in
        let value := JS.trim (JS.substringFrom (S colonIndex) pair) in
        if negb (JS.isEmpty key) && negb (JS.isEmpty value) then
          if String.eqb key "__proto__" then headers
          else <[ key := JStr value ]> headers
        else headers
      else headers
  | None => headers
  end.

(** Lines 95-110, the comma-separated format. *)
Definition commaHeaders (trimmed : string) : gmap string json :=
  fold_left addPair (JS.splitChar "," trimmed) ∅.

Definition parseCustomHeaders (headersRaw : string) : gmap string json :=
  if JS.isEmpty headersRaw || JS.isEmpty (JS.trim headersRaw) then ∅
  else
    let trimmed := JS.trim headersRaw in
    if JS.startsWithChar "{" trimmed then
      match JSON_parse trimmed with
      | Parsed v => spread v
      | SyntaxError _ => commaHeaders trimmed
      end
    else commaHeaders trimmed.

(** What the comma-separated format can produce: a key that is not empty,
    is trimmed, holds neither colon nor comma and is not [__proto__], and a
    string value that is not empty, is trimmed and holds no comma. *)
Definition commaEntry (k : string) (v : json) : Prop :=
  k <> "" /\ JS.trim k = k /\ JS.hasChar ":" k = false
  /\ JS.hasChar "," k = false /\ k <> "__proto__"
  /\ exists s : string,
       v = JStr s /\ s <> "" /\ JS.trim s = s /\ JS.hasChar "," s = false.

(** A key and a value, white space around them allowed, that the loop of
    lines 99-108 accepts when written [key:value]. *)
Definition acceptedPair (kv : string * string) : Prop :=
  JS.hasChar ":" (fst kv) = false /\ JS.hasChar "," (fst kv) = false
  /\ JS.hasChar "," (snd kv) = false
  /\ JS.trim (fst kv) <> "" /\ JS.trim (snd kv) <> ""
  /\ JS.trim (fst kv) <> "__proto__".

Definition pairText (kv : string * string) : string :=
  fst kv +:+ String ":" (snd kv).

Definition setHeader (headers : gmap string json) (kv : string * string)
    : gmap string json :=
  <[ JS.trim (fst kv) := JStr (JS.trim (snd kv)) ]> headers.

(** *** The earlier variant of the bridge (src/unnamed/part_000)

    Its ['line'] handler sends every line that parses, without looking at
    the message, keeps no session and sets no timeout. *)

(** Lines 144-149: the custom headers come last and replace every
    default. *)
Definition legacy_headers (jsonRequest : json) : gmap string json :=
  let body := JSON_stringify jsonRequest in
  customHeaders
    ∪ (<[ "Accept" := JStr "application/json" ]>
         (<[ "Content-Length" := JNum (JS.byteLength body) ]>
            {[ "Content-Type" := JStr "application/json" ]})).

(** [jsonRequest.id || null]; [None] when the message is [null] and the
    read throws. *)
Definition legacy_id (jsonRequest : json) : option json :=
  match jsonRequest with
  | JNull => None
  | _ => Some (default JNull (js_or (prop jsonRequest "id") (Some JNull)))
  end.

Definition legacy_reply (jsonRequest : json) (msg : string) (w : world)
    : handled * world :=
  match legacy_id jsonRequest with
  | Some id => (Done, sendError (JNum (-32000)) msg (Some id) w)
  | None => (Threw, w)
  end.

(** Lines 128-213. No ['timeout'] listener exists and no timeout is set:
    an attempt that would time out never settles. *)
Definition legacy_on_line (line : string) (w : world) : handled * world :=
  if JS.isEmpty (JS.trim line) then (Done, w)
  else
    match JSON_parse line with
    | SyntaxError msg =>
        (Done, sendError (JNum (-32700)) ("Parse error: " +:+ msg) None w)
    | Parsed jsonRequest =>
        let rq := HttpRequest (legacy_headers jsonRequest) jsonRequest in
        match exchange rq w with
        | (Response status _ data, w) =>
            if (200 <=? status) && (status <? 300) then (Done, onSuccess data w)
            else
              legacy_reply jsonRequest
                ("HTTP " +:+ JS.showZ status +:+ ": " +:+ JS.substring0 500 data) w
        | (NetError msg, w) =>
            legacy_reply jsonRequest ("Request error: " +:+ msg) w
        | (Timeout, w) => (Unsettled, w)
        end
    end.

(** *** Measures of a run *)

(** The message on the line is one the handler sends upstream: it names
    version 2.0, has a truthy method, and its id is absent (a
    notification) or not [null] (a request). *)
Definition dispatches (line : string) : bool :=
  match JSON_parse line with
  | Parsed v =>
      strictEqStr (prop v "jsonrpc") "2.0" && truthy' (prop v "method")
      && negb (is_null (prop v "id"))
  | SyntaxError _ => false
  end.

Definition isErrorReply (o : out_line) : bool :=
  match o with
  | ErrorReply _ _ _ => true
  | Forwarded _ => false
  end.

(** The number of error objects written so far. *)
Definition errorReplies (w : world) : nat :=
  length (List.filter isErrorReply (stdout w)).

(** A line of stdout that a client can read: an error object, or a
    forwarded line that [JSON.parse] accepts. *)
Definition readable (o : out_line) : bool :=
  match o with
  | ErrorReply _ _ _ => true
  | Forwarded line => parses line
  end.

(** The id under which an error object was written, if it is one. *)
Definition replyId (o : out_line) : option json :=
  match o with
  | ErrorReply _ _ id => Some id
  | Forwarded _ => None
  end.

(** From [w] to [w'] stdout was only added to, by lines that satisfy [P]. *)
Definition writes (P : out_line -> Prop) (w w' : world) : Prop :=
  exists more : list out_line, stdout w' = stdout w ++ more /\ Forall P more.

(** The id of the message on a line, [null] when it has none or when the
    line does not parse. *)
Definition lineId (line : string) : json :=
  match JSON_parse line with
  | Parsed v => default JNull (prop v "id")
  | SyntaxError _ => JNull
  end.

(** An error object carries the id [id]; a forwarded line is not
    concerned. *)
Definition repliesTo (id : json) (o : out_line) : Prop :=
  match o with
  | ErrorReply _ _ id' => id' = id
  | Forwarded _ => True
  end.

(** The two session variables agree: the flag is set exactly when a
    non-empty token is held. *)
Definition sessionConsistent (w : world) : Prop :=
  isInitialized w = session_held w /\ sessionId w <> Some "".

End Bridge.

Arguments World {Server}.
Arguments sessionId {Server}.
Arguments isInitialized {Server}.
Arguments stdout {Server}.
Arguments sent {Server}.
Arguments recoveries {Server}.
Arguments upstream {Server}.
Arguments console_log {Server}.
Arguments sendError {Server}.
Arguments set_session {Server}.
Arguments enter_recovery {Server}.
Arguments exchange {Server}.
Arguments session_held {Server}.
Arguments onResponse {Server}.
Arguments forward_lines JSON_parse {Server}.
Arguments onSuccess JSON_parse {Server}.
Arguments recoveryFailed {Server}.
Arguments reinitializeAndRetry {Server}.
Arguments rejectedRequest {Server}.
Arguments makeRequest JSON_parse JSON_stringify BEARER_TOKEN customHeaders {Server}.
Arguments on_line JSON_parse JSON_stringify BEARER_TOKEN customHeaders {Server}.
Arguments legacy_reply {Server}.
Arguments legacy_on_line JSON_parse JSON_stringify customHeaders {Server}.
Arguments errorReplies {Server}.
Arguments sessionConsistent {Server}.
Arguments writes {Server}.

(** ** A sample runtime and sample upstreams

    Instances of the parameters, used to run the bridge on concrete
    inputs. [Sample.parse] agrees with [JSON.parse] on texts built from
    objects, arrays, strings without escapes, safe integers and the three
    literals; it rejects every other text, and its [SyntaxError] carries a
    fixed message where V8 gives a position. *)

Module Sample.

Definition isJsonSpace (c : ascii) : bool :=
  match N_of_ascii c with
  | 9%N | 10%N | 13%N | 32%N => true
  | _ => false
  end.

Fixpoint skip (s : string) : string :=
  match s with
  | String c s' => if isJsonSpace c then skip s' else s
  | EmptyString => EmptyString
  end.

Definition isDigit (c : ascii) : bool :=
  let n := N_of_ascii c in ((48 <=? n) && (n <=? 57))%N.

(** The digits at the head of [s], their value after [acc], and the rest. *)
Fixpoint digits (acc : Z) (s : string) : Z * string :=
  match s with
  | String c s' =>
      if isDigit c then digits (10 * acc + (Z.of_N (N_of_ascii c) - 48)) s'
      else (acc, s)
  | EmptyString => (acc, s)
  end.

(** A safe integer without leading zeros; nothing that continues as a
    fraction or an exponent, and nothing of magnitude 2^53 or more, which
    [JSON.parse] would round. *)
Definition number (s : string) : option (Z * string) :=
  let '(neg, s1) :=
    match s with
    | String "-" r => (true, r)
    | _ => (false, s)
    end in
  match s1 with
  | String c r =>
      if isDigit c then
        let '(n, rest) := digits 0 s1 in
        let leadingZero := Ascii.eqb c "0" && negb (String.eqb s1 ("0" +:+ rest)) in
        let continues :=
          match rest with
          | String "." _ | String "e" _ | String "E" _ => true
          | _ => false
          end in
        if leadingZero || continues || (2 ^ 53 <=? n) then None
        else Some (if neg then - n else n, rest)
      else None
  | EmptyString => None
  end.

(** The characters up to the closing quote; no escapes, no control
    characters. *)
Fixpoint chars (s : string) : option (string * string) :=
  match s with
  | EmptyString => None
  | String c s' =>
      if Ascii.eqb c JS.DQUOTE then Some (EmptyString, s')
      else if Ascii.eqb c "\" || (N_of_ascii c <? 32)%N then None
      else match chars s' with
           | Some (t, rest) => Some (String c t, rest)
           | None => None
           end
  end.

Definition literal (word : string) (v : json) (s : string) : option (json * string) :=
  if String.prefix word s
  then Some (v, String.substring (String.length word)
                  (String.length s - String.length word) s)
  else None.

(** A later member replaces an earlier one of the same name. *)
Fixpoint put (k : string) (v : json) (members : list (string * json))
    : list (string * json) :=
  match members with
  | [] => [(k, v)]
  | (k', v') :: rest =>
      if String.eqb k k' then (k, v) :: rest else (k', v') :: put k v rest
  end.

Fixpoint value (fuel : nat) (s : string) : option (json * string) :=
  match fuel with
  | O => None
  | S fuel' =>
      match skip s with
      | String "n" _ => literal "null" JNull (skip s)
      | String "t" _ => literal "true" (JBool true) (skip s)
      | String "f" _ => literal "false" (JBool false) (skip s)
      | String "[" r =>
          match skip r with
          | String "]" rest => Some (JArr [], rest)
          | _ => match elements fuel' r with
                 | Some (items, rest) => Some (JArr items, rest)
                 | None => None
                 end
          end
      | String "{" r =>
          match skip r with
          | String "}" rest => Some (JObj [], rest)
          | _ => match members fuel' [] r with
                 | Some (ms, rest) => Some (JObj ms, rest)
                 | None => None
                 end
          end
      | String c r =>
          if Ascii.eqb c JS.DQUOTE then
            match chars r with
            | Some (t, rest) => Some (JStr t, rest)
            | None => None
            end
          else match number (skip s) with
               | Some (n, rest) => Some (JNum n, rest)
               | None => None
               end
      | EmptyString => None
      end
  end
with elements (fuel : nat) (s : string) : option (list json * string) :=
  match fuel with
  | O => None
  | S fuel' =>
      match value fuel' s with
      | Some (v, rest) =>
          match skip rest with
          | String "]" rest' => Some ([v], rest')
          | String "," rest' =>
              match elements fuel' rest' with
              | Some (vs, rest'') => Some (v :: vs, rest'')
              | None => None
              end
          | _ => None
          end
      | None => None
      end
  end
with members (fuel : nat) (acc : list (string * json)) (s : string)
    : option (list (string * json) * string) :=
  match fuel with
  | O => None
  | S fuel' =>
      match skip s with
      | String c r =>
          if Ascii.eqb c JS.DQUOTE then
            match chars r with
            | Some (k, rest) =>
                match skip rest with
                | String ":" rest' =>
                    match value fuel' rest' with
                    | Some (v, rest'') =>
                        match skip rest'' with
                        | String "}" rest3 => Some (put k v acc, rest3)
                        | String "," rest3 => members fuel' (put k v acc) rest3
                        | _ => None
                        end
                    | None => None
                    end
                | _ => None
                end
            | None => None
            end
          else None
      | EmptyString => None
      end
  end.

Definition parse (text : string) : parse_result :=
  match value (2 * String.length text + 2) text with
  | Some (v, rest) =>
      if JS.isEmpty (skip rest) then Parsed v
      else SyntaxError "Unexpected non-whitespace character after JSON"
  | None => SyntaxError "Unexpected token in JSON"
  end.

(** [JSON.stringify] on values whose strings need no escape and whose
    keys are not integer-like. *)
Definition quote (s : string) : string :=
  String JS.DQUOTE (s +:+ String JS.DQUOTE EmptyString).

Fixpoint stringify (v : json) : string :=
  match v with
  | JNull => "null"
  | JBool true => "true"
  | JBool false => "false"
  | JNum n => JS.showZ n
  | JStr s => quote s
  | JArr items =>
      "[" +:+
      (fix join (l : list json) : string :=
         match l with
         | [] => ""
         | x :: r =>
             match r with
             | [] => stringify x
             | _ => stringify x +:+ "," +:+ join r
             end
         end) items +:+ "]"
  | JObj ms =>
      "{" +:+
      (fix join (l : list (string * json)) : string :=
         match l with
         | [] => ""
         | (k, x) :: r =>
             match r with
             | [] => quote k +:+ ":" +:+ stringify x
             | _ => quote k +:+ ":" +:+ stringify x +:+ "," +:+ join r
             end
         end) ms +:+ "}"
  end.

(** An upstream that plays a script, one result per request, and refuses
    connections once the script is over. *)
Definition scripted (script : list http_result) (rq : http_request)
    : http_result * list http_result :=
  match script with
  | r :: rest => (r, rest)
  | [] => (NetError "connect ECONNREFUSED", [])
  end.


(** The bridge over the sample runtime, without bearer token or custom
    headers unless given. *)
Definition start {Server : Type} (sid : option string) (up : Server) : world Server :=
  World sid (bool_decide (sid <> None)) [] [] 0%nat up.

Definition run (bearer : option string) (custom : gmap string json)
    (script : list http_result) (sid : option string) (fuel : nat)
    (line : string) : handled * world (list http_result) :=
  on_line parse stringify bearer custom scripted fuel line (start sid script).

(** [{"jsonrpc":"2.0","method":m,"id":i}] and
    [{"jsonrpc":"2.0","method":m}] as input lines. *)
Definition request_line (m : string) (i : string) : string :=
  "{" +:+ quote "jsonrpc" +:+ ":" +:+ quote "2.0" +:+ ","
      +:+ quote "method" +:+ ":" +:+ quote m +:+ ","
      +:+ quote "id" +:+ ":" +:+ i +:+ "}".

Definition notification_line (m : string) : string :=
  "{" +:+ quote "jsonrpc" +:+ ":" +:+ quote "2.0" +:+ ","
      +:+ quote "method" +:+ ":" +:+ quote m +:+ "}".

(** The request [tools/list] with id 7, as a line and as the value read
    from it, and the notification [notifications/initialized]. *)
Definition toolsListLine : string := request_line "tools/list" "7".

Definition toolsList : json :=
  JObj [("jsonrpc", JStr "2.0"); ("method", JStr "tools/list"); ("id", JNum 7)].

Definition initializedLine : string :=
  notification_line "notifications/initialized".

(** The texts [{"a":1}] and [{"b":2}], and a text that is not JSON. *)
Definition lineA : string := "{" +:+ quote "a" +:+ ":1}".
Definition lineB : string := "{" +:+ quote "b" +:+ ":2}".
Definition notJson : string := "{oops".

(** A response header set that hands out the session id [S2]. *)
Definition handsOut : gmap string string := {[ "mcp-session-id" := "S2" ]}.


(** Several lines handled one after the other, each to the settling of its
    promise. *)
Fixpoint run_lines (fuel : nat) (lines : list string)
    (w : world (list http_result)) : world (list http_result) :=
  match lines with
  | [] => w
  | line :: rest =>
      run_lines fuel rest
        (snd (on_line parse stringify None ∅ scripted fuel line w))
  end.

(** A value of [CUSTOM_HEADERS] in the comma-separated format, with white
    space around some pieces, and the pairs it is made of. *)
Definition commaText : string := "  X-API-Key: abc123,X-Custom:value ".

Definition commaPairs : list (string * string) :=
  [("X-API-Key", " abc123"); ("X-Custom", "value")].

(** The text [{"a":"b","n":5}]. *)
Definition jsonText : string :=
  "{" +:+ quote "a" +:+ ":" +:+ quote "b" +:+ "," +:+ quote "n" +:+ ":5}".

(** The request [tools/list] with id 0, as a line and as a value. *)
Definition zeroIdLine : string := request_line "tools/list" "0".

Definition zeroIdRequest : json :=
  JObj [("jsonrpc", JStr "2.0"); ("method", JStr "tools/list"); ("id", JNum 0)].

(** The earlier variant over the sample runtime. *)
Definition run_legacy (custom : gmap string json) (script : list http_result)
    (line : string) : handled * world (list http_result) :=
  legacy_on_line parse stringify custom scripted line (start None script).



(** The session variables of a state. *)
Definition session {Server : Type} (w : world Server) : option string * bool :=
  (sessionId w, isInitialized w).

(** The value of [Mcp-Session-Id] on each request put on the wire. *)
Definition sessionHeadersSent {Server : Type} (w : world Server)
    : list (option json) :=
  map (fun rq => req_headers rq !! "Mcp-Session-Id") (sent w).

End Sample.

(** ** Properties *)


Section Properties.

Context (JSON_parse : string -> parse_result) (JSON_stringify : json -> string).
Context (BEARER_TOKEN : option string) (customHeaders : gmap string json).
Context {Server : Type} (serve : Server -> http_request -> http_result * Server).

Local Abbreviation headersFor :=
  (request_headers JSON_stringify BEARER_TOKEN customHeaders).
Local Abbreviation makeRequest_ :=
  (makeRequest JSON_parse JSON_stringify BEARER_TOKEN customHeaders serve).
Local Abbreviation on_line_ :=
  (on_line JSON_parse JSON_stringify BEARER_TOKEN customHeaders serve).

(** *** Header composition *)

Lemma isEmpty_false (s : string) : s <> "" -> JS.isEmpty s = false.
Proof. destruct s; [congruence | reflexivity]. Qed.

Lemma isEmpty_true (s : string) : JS.isEmpty s = true -> s = "".
Proof. destruct s; [reflexivity | discriminate]. Qed.

Lemma defaultHeaders_custom (k : string) (v : json) :
  customHeaders !! k = Some v ->
  defaultHeaders BEARER_TOKEN customHeaders !! k = Some v.
Proof. intros H. unfold defaultHeaders. by apply lookup_union_Some_l. Qed.

Lemma defaultHeaders_session :
  defaultHeaders BEARER_TOKEN customHeaders !! "Mcp-Session-Id"
  = customHeaders !! "Mcp-Session-Id".
Proof.
  unfold defaultHeaders, baseHeaders.
  destruct (customHeaders !! "Mcp-Session-Id") as [v|] eqn:E.
  - by apply lookup_union_Some_l.
  - rewrite lookup_union_r by done.
    destruct BEARER_TOKEN as [t|]; [destruct (JS.isEmpty t)|];
      by simplify_map_eq.
Qed.

(** C5, as the code has it. For an [initialize] message the held session
    token is never attached: the request's [Mcp-Session-Id] header is the
    one the custom headers configure, and absent when they configure none.
    For any other message sent while a token is held, the header is exactly
    that token. A custom header named [Content-Type] or [Authorization]
    replaces the default of that exact name; under any other spelling the
    default [Content-Type] stays. *)
Theorem C5_request_headers (jsonRequest : json) (sid : option string) :
  (isInitializeCall jsonRequest = true ->
     headersFor jsonRequest sid !! "Mcp-Session-Id"
     = customHeaders !! "Mcp-Session-Id")
  /\ (forall tok : string,
        isInitializeCall jsonRequest = false -> sid = Some tok -> tok <> "" ->
        headersFor jsonRequest sid !! "Mcp-Session-Id" = Some (JStr tok))
  /\ (forall (k : string) (v : json),
        k = "Content-Type" \/ k = "Authorization" ->
        customHeaders !! k = Some v ->
        headersFor jsonRequest sid !! k = Some v)
  /\ (customHeaders !! "Content-Type" = None ->
        headersFor jsonRequest sid !! "Content-Type"
        = Some (JStr "application/json")).
Proof.
  repeat split.
  - intros Hinit. unfold request_headers. rewrite Hinit. simpl.
    destruct sid; rewrite lookup_insert_ne by done; apply defaultHeaders_session.
  - intros tok Hinit -> Hne. unfold request_headers.
    rewrite Hinit, (isEmpty_false tok Hne). simpl. apply lookup_insert_eq.
  - intros k v Hk Hc. unfold request_headers.
    assert (Hd : (<["Content-Length":=JNum (JS.byteLength (JSON_stringify jsonRequest))]>
                    (defaultHeaders BEARER_TOKEN customHeaders)) !! k = Some v).
    { rewrite lookup_insert_ne by (destruct Hk; subst; done).
      by apply defaultHeaders_custom. }
    destruct sid as [s|]; [|exact Hd].
    destruct (negb (isInitializeCall jsonRequest) && negb (JS.isEmpty s)); [|exact Hd].
    rewrite lookup_insert_ne by (destruct Hk; subst; done). exact Hd.
  - intros Hc. unfold request_headers.
    assert (Hd : (<["Content-Length":=JNum (JS.byteLength (JSON_stringify jsonRequest))]>
                    (defaultHeaders BEARER_TOKEN customHeaders)) !! "Content-Type"
                 = Some (JStr "application/json")).
    { rewrite lookup_insert_ne by done. unfold defaultHeaders.
      rewrite lookup_union_r by done. unfold baseHeaders.
      destruct BEARER_TOKEN as [t|]; [destruct (JS.isEmpty t)|];
        by simplify_map_eq. }
    destruct sid as [s|]; [|exact Hd].
    destruct (negb (isInitializeCall jsonRequest) && negb (JS.isEmpty s)); [|exact Hd].
    rewrite lookup_insert_ne by done. exact Hd.
Qed.

(** *** One call of makeRequest *)

Lemma makeRequest_S (fuel : nat) (jsonRequest : json) (w : world Server) :
  makeRequest_ (S fuel) jsonRequest w =
  let isInitialize := isInitializeCall jsonRequest in
  let rq := HttpRequest (headersFor jsonRequest (sessionId w)) jsonRequest in
  match exchange serve rq w with
  | (NetError msg, w) => (Rejected (JsError msg None None), w)
  | (Timeout, w) => (Rejected (JsError "Request timeout" None None), w)
  | (Response status headers data, w) =>
      let w := onResponse isInitialize headers w in
      if (status =? 404) && session_held w && negb isInitialize then
        let w := set_session None false w in
        reinitializeAndRetry (makeRequest_ fuel) jsonRequest (enter_recovery w)
      else if (200 <=? status) && (status <? 300) then
        (Resolved, onSuccess JSON_parse data w)
      else
        (Rejected (httpError JSON_parse status data), w)
  end.
Proof. reflexivity. Qed.

Lemma exchange_eq (rq : http_request) (w : world Server)
    (res : http_result) (up : Server) :
  serve (upstream w) rq = (res, up) ->
  exchange serve rq w
  = (res, World (sessionId w) (isInitialized w) (stdout w) (sent w ++ [rq])
            (recoveries w) up).
Proof. intros H. unfold exchange. by rewrite H. Qed.

Lemma onResponse_other (headers : gmap string string) (w : world Server) :
  onResponse false headers w = w.
Proof.
  unfold onResponse. destruct (sessionHeader headers); [|done].
  by rewrite andb_false_r.
Qed.


Lemma forward_lines_spec (lines : list string) (w : world Server) :
  forward_lines JSON_parse lines w
  = World (sessionId w) (isInitialized w)
      (stdout w ++ map Forwarded (List.filter (parses JSON_parse) lines))
      (sent w) (recoveries w) (upstream w).
Proof.
  revert w. induction lines as [|line rest IH]; intros w; simpl.
  - rewrite app_nil_r. by destruct w.
  - rewrite IH. destruct (parses JSON_parse line); simpl; [|done].
    by rewrite <- app_assoc.
Qed.

Lemma onSuccess_spec (data : string) (w : world Server) :
  onSuccess JSON_parse data w
  = World (sessionId w) (isInitialized w)
      (stdout w ++ map Forwarded (forwarded JSON_parse data))
      (sent w) (recoveries w) (upstream w).
Proof.
  unfold onSuccess, forwarded.
  destruct (JS.isEmpty (JS.trim data)) eqn:E.
  - apply isEmpty_true in E. rewrite E. simpl. rewrite app_nil_r. by destruct w.
  - apply forward_lines_spec.
Qed.

(** A call that does not meet a 404 under a held session: one exchange,
    then the 2xx branch or the error branch. *)
Lemma makeRequest_direct (fuel : nat) (jsonRequest : json) (w : world Server)
    (status : Z) (headers : gmap string string) (data : string) (up : Server) :
  serve (upstream w)
    (HttpRequest (headersFor jsonRequest (sessionId w)) jsonRequest)
  = (Response status headers data, up) ->
  let w1 := onResponse (isInitializeCall jsonRequest) headers
              (World (sessionId w) (isInitialized w) (stdout w)
                 (sent w ++ [HttpRequest (headersFor jsonRequest (sessionId w)) jsonRequest])
                 (recoveries w) up) in
  (status =? 404) && session_held w1 && negb (isInitializeCall jsonRequest) = false ->
  makeRequest_ (S fuel) jsonRequest w
  = if (200 <=? status) && (status <? 300)
    then (Resolved, onSuccess JSON_parse data w1)
    else (Rejected (httpError JSON_parse status data), w1).
Proof.
  intros Hs w1 Hno. rewrite makeRequest_S. cbv zeta.
  rewrite (exchange_eq _ _ _ _ Hs). fold w1. by rewrite Hno.
Qed.

(** A non-initialize call that meets a 404 while a session token is held:
    both session variables are cleared and the recovery starts. *)
Lemma makeRequest_recovers (fuel : nat) (jsonRequest : json) (w : world Server)
    (headers : gmap string string) (data : string) (up : Server) :
  isInitializeCall jsonRequest = false ->
  session_held w = true ->
  serve (upstream w)
    (HttpRequest (headersFor jsonRequest (sessionId w)) jsonRequest)
  = (Response 404 headers data, up) ->
  makeRequest_ (S fuel) jsonRequest w
  = reinitializeAndRetry (makeRequest_ fuel) jsonRequest
      (World None false (stdout w)
         (sent w ++ [HttpRequest (headersFor jsonRequest (sessionId w)) jsonRequest])
         (S (recoveries w)) up).
Proof.
  intros Hi Hh Hs. rewrite makeRequest_S. cbv zeta.
  rewrite (exchange_eq _ _ _ _ Hs), Hi, onResponse_other.
  unfold session_held in *. simpl. by rewrite Hh.
Qed.

(** *** Success bodies *)

Lemma split_nl_single (s : string) :
  JS.single_line s = true -> JS.split_nl s = [s].
Proof.
  induction s as [|c s IH]; simpl; [done|].
  destruct (Ascii.eqb c JS.LF); simpl; [done|].
  intros H. by rewrite (IH H).
Qed.

Lemma split_nl_line (s t : string) :
  JS.single_line s = true ->
  JS.split_nl (s +:+ String JS.LF t) = s :: JS.split_nl t.
Proof.
  induction s as [|c s IH]; simpl.
  - done.
  - destruct (Ascii.eqb c JS.LF); simpl; [done|].
    intros H. by rewrite (IH H).
Qed.

Lemma split_join_nl (lines : list string) :
  lines <> [] ->
  Forall (fun l => JS.single_line l = true) lines ->
  JS.split_nl (JS.join_nl lines) = lines.
Proof.
  induction lines as [|l ls IH]; [done|].
  intros _ Hall. inversion Hall as [|? ? Hl Hls]; subst.
  destruct ls as [|l' ls'].
  - simpl. by apply split_nl_single.
  - change (JS.join_nl (l :: l' :: ls'))
      with (l +:+ String JS.LF (JS.join_nl (l' :: ls'))).
    rewrite (split_nl_line _ _ Hl). f_equal. by apply IH.
Qed.

Lemma filter_filter_lines (p q : string -> bool) (lines : list string) :
  List.filter p (List.filter q lines)
  = List.filter (fun l => q l && p l) lines.
Proof.
  induction lines as [|l ls IH]; simpl; [done|].
  destruct (q l); simpl; [destruct (p l)|]; by rewrite IH.
Qed.

Lemma filter_all_lines (p : string -> bool) (lines : list string) :
  Forall (fun l => p l = true) lines -> List.filter p lines = lines.
Proof.
  induction 1 as [|l ls Hl _ IH]; simpl; [done|]. by rewrite Hl, IH.
Qed.

(** A body that is already trimmed and made of the given lines. *)
Lemma forwarded_lines (lines : list string) :
  lines <> [] ->
  Forall (fun l => JS.single_line l = true) lines ->
  JS.trim (JS.join_nl lines) = JS.join_nl lines ->
  forwarded JSON_parse (JS.join_nl lines)
  = List.filter
      (fun l => negb (JS.isEmpty (JS.trim l)) && parses JSON_parse l) lines.
Proof.
  intros Hne Hall Htrim. unfold forwarded.
  by rewrite Htrim, (split_join_nl lines Hne Hall), filter_filter_lines.
Qed.

(** C7. A response with a status in 200-299 resolves the promise and
    prints, in their order and as they are, the lines of the trimmed body
    that are not blank and that [JSON.parse] accepts; nothing when the body
    trims to the empty string. So a trimmed body of [n] non-blank lines
    that all parse prints exactly these [n] lines, and a body of one line
    that parses and one that does not prints the first alone. *)
Theorem C7_success_body (fuel : nat) (jsonRequest : json) (w : world Server)
    (status : Z) (headers : gmap string string) (data : string) (up : Server) :
  serve (upstream w)
    (HttpRequest (headersFor jsonRequest (sessionId w)) jsonRequest)
  = (Response status headers data, up) ->
  (200 <=? status) && (status <? 300) = true ->
  let r := makeRequest_ (S fuel) jsonRequest w in
  fst r = Resolved
  /\ stdout (snd r) = stdout w ++ map Forwarded (forwarded JSON_parse data)
  /\ (JS.trim data = "" -> stdout (snd r) = stdout w)
  /\ (forall lines : list string,
        data = JS.join_nl lines -> lines <> [] ->
        JS.trim data = data ->
        Forall (fun l => JS.single_line l = true) lines ->
        Forall (fun l => negb (JS.isEmpty (JS.trim l)) && parses JSON_parse l = true) lines ->
        stdout (snd r) = stdout w ++ map Forwarded lines)
  /\ (forall good bad : string,
        data = JS.join_nl [bad; good] \/ data = JS.join_nl [good; bad] ->
        JS.trim data = data ->
        JS.single_line good = true -> JS.single_line bad = true ->
        JS.trim good <> "" ->
        parses JSON_parse good = true -> parses JSON_parse bad = false ->
        stdout (snd r) = stdout w ++ [Forwarded good]).
Proof.
  intros Hs H2xx r.
  assert (Hr : r = (Resolved,
                    World (sessionId (onResponse (isInitializeCall jsonRequest) headers w))
                      (isInitialized (onResponse (isInitializeCall jsonRequest) headers w))
                      (stdout w ++ map Forwarded (forwarded JSON_parse data))
                      (sent w ++ [HttpRequest (headersFor jsonRequest (sessionId w)) jsonRequest])
                      (recoveries w) up)).
  { unfold r.
    rewrite (makeRequest_direct fuel jsonRequest w status headers data up Hs).
    - rewrite H2xx, onSuccess_spec. unfold onResponse.
      destruct (sessionHeader headers) as [sid|]; [|done].
      by destruct (negb (JS.isEmpty sid) && isInitializeCall jsonRequest).
    - assert ((status =? 404) = false) as -> by lia. done. }
  rewrite Hr. cbn [fst snd stdout]. split; [done|]. split; [done|]. split; [|split].
  - intros Hempty. unfold forwarded. rewrite Hempty. simpl. apply app_nil_r.
  - intros lines -> Hne Htrim Hsingle Hvalid.
    by rewrite (forwarded_lines lines Hne Hsingle Htrim), (filter_all_lines _ _ Hvalid).
  - intros good bad Hdata Htrim Hg Hb Hgne Hpg Hpb.
    destruct Hdata as [-> | ->].
    + rewrite (forwarded_lines [bad; good]); [|done|by repeat constructor|done].
      simpl. by rewrite Hpb, Hpg, (isEmpty_false _ Hgne), andb_false_r.
    + rewrite (forwarded_lines [good; bad]); [|done|by repeat constructor|done].
      simpl. by rewrite Hpb, Hpg, (isEmpty_false _ Hgne), andb_false_r.
Qed.

(** *** Recovery *)

Lemma onResponse_issued (headers : gmap string string) (w : world Server) :
  onResponse true headers w
  = match issuedToken headers with
    | Some tok => set_session (Some tok) true w
    | None => w
    end.
Proof.
  unfold onResponse, issuedToken.
  destruct (sessionHeader headers) as [sid|]; [|done].
  by destruct (JS.isEmpty sid).
Qed.

(** The synthetic initialize sent from the cleared state, answered 2xx. *)
Lemma initialize_resolves (fuel : nat) (out : list out_line)
    (snt : list http_request) (rec : nat) (u u' : Server) (status : Z)
    (headers : gmap string string) (data : string) :
  serve u (HttpRequest (headersFor initRequest None) initRequest)
  = (Response status headers data, u') ->
  (200 <=? status) && (status <? 300) = true ->
  makeRequest_ (S fuel) initRequest (World None false out snt rec u)
  = (Resolved,
     World (issuedToken headers) (bool_decide (issuedToken headers <> None))
       (out ++ map Forwarded (forwarded JSON_parse data))
       (snt ++ [HttpRequest (headersFor initRequest None) initRequest])
       rec u').
Proof.
  intros Hs H2xx.
  rewrite (makeRequest_direct fuel initRequest (World None false out snt rec u)
             status headers data u' Hs)
    by apply andb_false_r.
  rewrite H2xx, onSuccess_spec.
  change (isInitializeCall initRequest) with true.
  rewrite onResponse_issued. by destruct (issuedToken headers).
Qed.


(** The requests put on the wire are only ever added to. *)
Lemma sent_extends (fuel : nat) (jsonRequest : json) (w : world Server) :
  exists more : list http_request,
    sent (snd (makeRequest_ fuel jsonRequest w)) = sent w ++ more.
Proof.
  revert jsonRequest w. induction fuel as [|fuel IH]; intros jsonRequest w.
  - exists []. simpl. by rewrite app_nil_r.
  - rewrite makeRequest_S. cbv zeta. unfold exchange.
    destruct (serve (upstream w) _) as [[status headers data|msg|] up];
      [|by eexists|by eexists].
    set (w1 := onResponse _ headers _).
    assert (Hw1 : sent w1
                  = sent w ++ [HttpRequest (headersFor jsonRequest (sessionId w)) jsonRequest]).
    { unfold w1, onResponse. destruct (sessionHeader headers) as [sid|]; [|done].
      by destruct (negb (JS.isEmpty sid) && isInitializeCall jsonRequest). }
    destruct ((status =? 404) && session_held w1 && negb (isInitializeCall jsonRequest)).
    + unfold reinitializeAndRetry.
      set (w2 := enter_recovery (set_session None false w1)).
      destruct (IH initRequest w2) as [m1 H1].
      destruct (makeRequest_ fuel initRequest w2) as [[|e|] w3]; simpl in H1.
      * destruct (IH jsonRequest w3) as [m2 H2].
        destruct (makeRequest_ fuel jsonRequest w3) as [[|e|] w4]; simpl in H2;
          eexists; simpl; rewrite H2, H1; simpl; rewrite Hw1, <- !app_assoc; done.
      * eexists. simpl. rewrite H1. simpl. by rewrite Hw1, <- app_assoc.
      * eexists. simpl. rewrite H1. simpl. by rewrite Hw1, <- app_assoc.
    + destruct ((200 <=? status) && (status <? 300)).
      * rewrite onSuccess_spec. simpl. by eexists.
      * simpl. by eexists.
Qed.



(** *** HTTP errors *)




(** *** Session state *)

(** C9, as the code has it. A response to a non-initialize call never
    stores the session id it carries. The session token and the
    initialized flag are as before once the call has settled, unless the
    status is 404 while a token is held: then both are cleared, whatever
    the response's headers, and the recovery starts from the cleared
    state. *)
Theorem C9_non_initialize_response (fuel : nat) (jsonRequest : json)
    (w : world Server) (status : Z) (headers : gmap string string)
    (data : string) (up : Server) :
  isInitializeCall jsonRequest = false ->
  serve (upstream w)
    (HttpRequest (headersFor jsonRequest (sessionId w)) jsonRequest)
  = (Response status headers data, up) ->
  onResponse false headers w = w
  /\ ((status =? 404) && session_held w = false ->
      sessionId (snd (makeRequest_ (S fuel) jsonRequest w)) = sessionId w
      /\ isInitialized (snd (makeRequest_ (S fuel) jsonRequest w)) = isInitialized w)
  /\ ((status =? 404) && session_held w = true ->
      makeRequest_ (S fuel) jsonRequest w
      = reinitializeAndRetry (makeRequest_ fuel) jsonRequest
          (World None false (stdout w)
             (sent w ++ [HttpRequest (headersFor jsonRequest (sessionId w)) jsonRequest])
             (S (recoveries w)) up)).
Proof.
  intros Hi Hs. split; [apply onResponse_other|]. split.
  - intros Hno.
    rewrite (makeRequest_direct fuel jsonRequest w status headers data up Hs).
    + rewrite Hi, onResponse_other.
      destruct ((200 <=? status) && (status <? 300)); [|done].
      by rewrite onSuccess_spec.
    + rewrite Hi, onResponse_other. unfold session_held in *. simpl.
      by rewrite Hno.
  - intros Hyes. apply andb_prop in Hyes as [H404 Hheld].
    apply Z.eqb_eq in H404. subst status.
    by apply (makeRequest_recovers fuel jsonRequest w headers data up).
Qed.


(** *** The trigger of the recovery *)


(** *** Replies to failed messages *)

Lemma makeRequest_failsDirectly (fuel : nat) (jsonRequest : json)
    (w : world Server) (res : http_result) (up : Server) (e : js_error) :
  serve (upstream w)
    (HttpRequest (headersFor jsonRequest (sessionId w)) jsonRequest)
  = (res, up) ->
  isInitializeCall jsonRequest = false ->
  failsDirectly JSON_parse jsonRequest (session_held w) res = Some e ->
  makeRequest_ (S fuel) jsonRequest w
  = (Rejected e,
     World (sessionId w) (isInitialized w) (stdout w)
       (sent w ++ [HttpRequest (headersFor jsonRequest (sessionId w)) jsonRequest])
       (recoveries w) up).
Proof.
  intros Hs Hi Hf. destruct res as [status headers data|msg|]; simpl in Hf.
  - rewrite Hi in Hf. simpl in Hf. rewrite andb_true_r in Hf.
    destruct ((status =? 404) && session_held w) eqn:E404; [done|].
    destruct ((200 <=? status) && (status <? 300)) eqn:E2xx; [done|].
    simplify_eq.
    rewrite (makeRequest_direct fuel jsonRequest w status headers data up Hs).
    + by rewrite E2xx, Hi, onResponse_other.
    + rewrite Hi, onResponse_other. unfold session_held in *. simpl.
      by rewrite E404.
  - simplify_eq. rewrite makeRequest_S. cbv zeta.
    by rewrite (exchange_eq _ _ _ _ Hs).
  - simplify_eq. rewrite makeRequest_S. cbv zeta.
    by rewrite (exchange_eq _ _ _ _ Hs).
Qed.

(** The same for every message, an [initialize] included: the promise is
    rejected with that error and nothing is written. *)
Lemma makeRequest_fails_quietly (fuel : nat) (jsonRequest : json)
    (w : world Server) (res : http_result) (up : Server) (e : js_error) :
  serve (upstream w)
    (HttpRequest (headersFor jsonRequest (sessionId w)) jsonRequest)
  = (res, up) ->
  failsDirectly JSON_parse jsonRequest (session_held w) res = Some e ->
  fst (makeRequest_ (S fuel) jsonRequest w) = Rejected e
  /\ stdout (snd (makeRequest_ (S fuel) jsonRequest w)) = stdout w.
Proof.
  intros Hs Hf. destruct (isInitializeCall jsonRequest) eqn:Hi.
  - rewrite makeRequest_S. cbv zeta. rewrite (exchange_eq _ _ _ _ Hs), Hi.
    destruct res as [status headers data|msg|]; simpl in Hf.
    + rewrite Hi in Hf. rewrite andb_false_r in Hf |- *. cbn [andb] in Hf.
      destruct ((200 <=? status) && (status <? 300)); [done|].
      simplify_eq. rewrite onResponse_issued.
      by destruct (issuedToken headers).
    + by simplify_eq.
    + by simplify_eq.
  - by rewrite (makeRequest_failsDirectly fuel jsonRequest w res up e Hs Hi Hf).
Qed.


(** A notification whose exchange fails without starting a recovery
    writes nothing. *)
Lemma notification_fails_directly (fuel : nat) (line : string)
    (w : world Server) (jsonRequest : json) (res : http_result) (up : Server)
    (e : js_error) :
  JS.trim line <> "" ->
  JSON_parse line = Parsed jsonRequest ->
  strictEqStr (prop jsonRequest "jsonrpc") "2.0" = true ->
  truthy' (prop jsonRequest "method") = true ->
  prop jsonRequest "id" = None ->
  serve (upstream w)
    (HttpRequest (headersFor jsonRequest (sessionId w)) jsonRequest)
  = (res, up) ->
  failsDirectly JSON_parse jsonRequest (session_held w) res = Some e ->
  fst (on_line_ (S fuel) line w) = Done
  /\ stdout (snd (on_line_ (S fuel) line w)) = stdout w.
Proof.
  intros Hne Hp Hv Hm Hid Hs Hf. unfold on_line.
  rewrite (isEmpty_false _ Hne), Hp, Hv, Hm, Hid.
  destruct jsonRequest; try done.
  cbn [negb is_Some_b andb].
  destruct (makeRequest_fails_quietly fuel _ w res up e Hs Hf) as [Hr Ho].
  destruct (makeRequest_ (S fuel) (JObj members) w) as [r w'].
  simpl in Hr, Ho. by subst r.
Qed.

(** *** Input lines *)

(** C8, as the code has it. A blank line, one that trims to the empty
    string, is ignored: the handler returns and nothing is written or
    sent. An input line that is not blank and that [JSON.parse] rejects
    gets exactly one reply, the error -32700 with id [null], and no request
    is put on the wire. *)
Theorem C8_parse_error (fuel : nat) (line : string) (w : world Server) :
  (JS.trim line = "" -> on_line_ fuel line w = (Done, w))
  /\ (forall msg : string,
        JS.trim line <> "" ->
        JSON_parse line = SyntaxError msg ->
        on_line_ fuel line w
        = (Done,
           World (sessionId w) (isInitialized w)
             (stdout w
                ++ [ErrorReply (JNum (-32700)) ("Parse error: " +:+ msg) JNull])
             (sent w) (recoveries w) (upstream w))).
Proof.
  split.
  - intros Hb. unfold on_line. by rewrite Hb.
  - intros msg Hne Hp. unfold on_line. by rewrite (isEmpty_false _ Hne), Hp.
Qed.

(** *** Strings: split, join, trim *)

Lemma splitChar_none (c : ascii) (s : string) :
  JS.hasChar c s = false -> JS.splitChar c s = [s].
Proof.
  induction s as [|d s IH]; simpl; [done|].
  destruct (Ascii.eqb d c); simpl; [done|].
  intros H. by rewrite (IH H).
Qed.

Lemma splitChar_nonempty (c : ascii) (s : string) : JS.splitChar c s <> [].
Proof.
  destruct s as [|d s]; simpl; [done|].
  destruct (Ascii.eqb d c); [done|]. by destruct (JS.splitChar c s).
Qed.

Lemma splitChar_append (c : ascii) (a b : string) :
  JS.splitChar c (a +:+ String c b) = JS.splitChar c a ++ JS.splitChar c b.
Proof.
  induction a as [|d a IH].
  - change ("" +:+ String c b) with (String c b). simpl.
    by rewrite Ascii.eqb_refl.
  - change (String d a +:+ String c b) with (String d (a +:+ String c b)).
    simpl. rewrite IH. destruct (Ascii.eqb d c); [done|].
    pose proof (splitChar_nonempty c a).
    by destruct (JS.splitChar c a).
Qed.

Lemma splitChar_join (c : ascii) (pieces : list string) :
  pieces <> [] ->
  Forall (fun l => JS.hasChar c l = false) pieces ->
  JS.splitChar c (JS.joinChar c pieces) = pieces.
Proof.
  induction pieces as [|l ls IH]; [done|].
  intros _ Hall. inversion Hall as [|? ? Hl Hls]; subst.
  destruct ls as [|l' ls'].
  - simpl. by apply splitChar_none.
  - change (JS.joinChar c (l :: l' :: ls'))
      with (l +:+ String c (JS.joinChar c (l' :: ls'))).
    rewrite splitChar_append, (splitChar_none c l Hl), IH; done.
Qed.

Lemma splitChar_pieces (c : ascii) (s : string) :
  Forall (fun l => JS.hasChar c l = false) (JS.splitChar c s).
Proof.
  induction s as [|d s IH]; simpl; [by repeat constructor|].
  destruct (Ascii.eqb d c) eqn:E; [by constructor|].
  destruct (JS.splitChar c s) as [|l ls]; [by repeat constructor; simpl; rewrite E|].
  inversion IH; subst. constructor; [|done]. simpl. by rewrite E.
Qed.

Lemma hasChar_app (c : ascii) (a b : string) :
  JS.hasChar c (a +:+ b) = JS.hasChar c a || JS.hasChar c b.
Proof.
  induction a as [|d a IH]; [done|].
  change (String d a +:+ b) with (String d (a +:+ b)). simpl.
  by rewrite IH, orb_assoc.
Qed.

Lemma indexOfChar_app (c : ascii) (k v : string) :
  JS.hasChar c k = false ->
  JS.indexOfChar c (k +:+ String c v) = Some (String.length k).
Proof.
  induction k as [|d k IH].
  - intros _. change ("" +:+ String c v) with (String c v). simpl.
    by rewrite Ascii.eqb_refl.
  - change (String d k +:+ String c v) with (String d (k +:+ String c v)).
    simpl. destruct (Ascii.eqb d c); [done|]. simpl. intros H. by rewrite (IH H).
Qed.

Lemma substring0_app (k t : string) :
  JS.substring0 (String.length k) (k +:+ t) = k.
Proof.
  induction k as [|d k IH].
  - change ("" +:+ t) with t. by destruct t.
  - change (String d k +:+ t) with (String d (k +:+ t)). simpl. by rewrite IH.
Qed.

Lemma substringFrom_app (c : ascii) (k v : string) :
  JS.substringFrom (S (String.length k)) (k +:+ String c v) = v.
Proof.
  induction k as [|d k IH].
  - change ("" +:+ String c v) with (String c v). by destruct v.
  - change (String d k +:+ String c v) with (String d (k +:+ String c v)).
    exact IH.
Qed.

Lemma indexOfChar_before (c : ascii) (s : string) (i : nat) :
  JS.indexOfChar c s = Some i -> JS.hasChar c (JS.substring0 i s) = false.
Proof.
  revert i. induction s as [|d s IH]; intros i; simpl; [done|].
  destruct (Ascii.eqb d c) eqn:E.
  - intros [= <-]. done.
  - destruct (JS.indexOfChar c s) as [j|]; [|done].
    intros [= <-]. simpl. by rewrite E, (IH j).
Qed.

Lemma hasChar_substring0 (c : ascii) (n : nat) (s : string) :
  JS.hasChar c s = false -> JS.hasChar c (JS.substring0 n s) = false.
Proof.
  revert n. induction s as [|d s IH]; intros [|n]; simpl; try done.
  intros H. apply orb_false_elim in H as [H1 H2]. by rewrite H1, (IH n H2).
Qed.

Lemma hasChar_substringFrom (c : ascii) (n : nat) (s : string) :
  JS.hasChar c s = false -> JS.hasChar c (JS.substringFrom n s) = false.
Proof.
  revert n. induction s as [|d s IH]; intros [|n]; simpl; try done.
  intros H. apply orb_false_elim in H as [H1 H2]. by apply IH.
Qed.

Lemma hasChar_trimStart (c : ascii) (s : string) :
  JS.hasChar c s = false -> JS.hasChar c (JS.trimStart s) = false.
Proof.
  induction s as [|d s IH]; simpl; [done|].
  intros H. destruct (JS.isWhiteSpace d); [|done].
  apply orb_false_elim in H as [_ H]. by apply IH.
Qed.

Lemma hasChar_trimEnd (c : ascii) (s : string) :
  JS.hasChar c s = false -> JS.hasChar c (JS.trimEnd s) = false.
Proof.
  induction s as [|d s IH]; simpl; [done|].
  intros H. apply orb_false_elim in H as [H1 H2]. specialize (IH H2).
  destruct (JS.trimEnd s) as [|e t].
  - destruct (JS.isWhiteSpace d); simpl; [done | by rewrite H1].
  - simpl in *. by rewrite H1, IH.
Qed.

Lemma hasChar_trim (c : ascii) (s : string) :
  JS.hasChar c s = false -> JS.hasChar c (JS.trim s) = false.
Proof. intros H. unfold JS.trim. by apply hasChar_trimEnd, hasChar_trimStart. Qed.

Lemma headOk_trimStart (s : string) : JS.headOk (JS.trimStart s) = true.
Proof.
  induction s as [|c s IH]; simpl; [done|].
  destruct (JS.isWhiteSpace c) eqn:E; [done|]. simpl. by rewrite E.
Qed.

Lemma trimStart_headOk (s : string) : JS.headOk s = true -> JS.trimStart s = s.
Proof.
  destruct s as [|c s]; simpl; [done|]. by destruct (JS.isWhiteSpace c).
Qed.

Lemma headOk_trimEnd (s : string) : JS.headOk s = true -> JS.headOk (JS.trimEnd s) = true.
Proof.
  destruct s as [|c s]; simpl; [done|]. intros H.
  destruct (JS.trimEnd s); simpl; [|done].
  destruct (JS.isWhiteSpace c) eqn:E; simpl in *; [done | by rewrite E].
Qed.

Lemma trimEnd_idemp (s : string) : JS.trimEnd (JS.trimEnd s) = JS.trimEnd s.
Proof.
  induction s as [|c s IH]; simpl; [done|].
  destruct (JS.trimEnd s) as [|d t] eqn:E.
  - destruct (JS.isWhiteSpace c) eqn:Ew; simpl; [done | by rewrite Ew].
  - change (JS.trimEnd (String c (String d t)))
      with (match JS.trimEnd (String d t) with
            | EmptyString =>
                if JS.isWhiteSpace c then EmptyString else String c EmptyString
            | t' => String c t'
            end).
    by rewrite IH.
Qed.

Lemma trim_idemp (s : string) : JS.trim (JS.trim s) = JS.trim s.
Proof.
  unfold JS.trim.
  rewrite (trimStart_headOk (JS.trimEnd (JS.trimStart s)))
    by apply headOk_trimEnd, headOk_trimStart.
  apply trimEnd_idemp.
Qed.

(** *** parseCustomHeaders *)

Lemma trim_nonempty_raw (raw : string) :
  JS.trim raw <> "" ->
  JS.isEmpty raw || JS.isEmpty (JS.trim raw) = false.
Proof.
  intros H. rewrite (isEmpty_false _ H), orb_false_r.
  destruct raw; [done | reflexivity].
Qed.

Lemma fold_addPair_entries (pieces : list string) (m : gmap string json) :
  Forall (fun l => JS.hasChar "," l = false) pieces ->
  (forall k v, m !! k = Some v -> commaEntry k v) ->
  forall k v, fold_left addPair pieces m !! k = Some v -> commaEntry k v.
Proof.
  revert m. induction pieces as [|piece rest IH]; intros m Hall Hm; [exact Hm|].
  inversion Hall as [|? ? Hpiece Hrest]; subst. simpl. apply IH; [done|].
  intros k v. unfold addPair.
  destruct (JS.indexOfChar ":" piece) as [i|] eqn:Ei; [|apply Hm].
  destruct (0 <? i)%nat; [|apply Hm].
  destruct (JS.isEmpty (JS.trim (JS.substring0 i piece))) eqn:Ek; [apply Hm|].
  destruct (JS.isEmpty (JS.trim (JS.substringFrom (S i) piece))) eqn:Ev;
    [apply Hm|].
  cbn [negb andb].
  destruct (String.eqb_spec (JS.trim (JS.substring0 i piece)) "__proto__")
    as [|Hproto]; [apply Hm|].
  rewrite lookup_insert_Some. intros [[<- <-]|[_ H]]; [|by apply Hm].
  repeat split.
  - intros E. by rewrite E in Ek.
  - apply trim_idemp.
  - apply hasChar_trim, indexOfChar_before, Ei.
  - by apply hasChar_trim, hasChar_substring0.
  - exact Hproto.
  - eexists. repeat split.
    + intros E. by rewrite E in Ev.
    + apply trim_idemp.
    + by apply hasChar_trim, hasChar_substringFrom.
Qed.

(** Every header read from the comma-separated format has a key that is
    not empty, is trimmed, holds neither colon nor comma and is not
    [__proto__], and a string value that is not empty, is trimmed and holds
    no comma. *)
Theorem commaFormat_entries (raw : string) (k : string) (v : json) :
  JS.startsWithChar "{" (JS.trim raw) && parses JSON_parse (JS.trim raw) = false ->
  parseCustomHeaders JSON_parse raw !! k = Some v ->
  commaEntry k v.
Proof.
  intros Hfmt. unfold parseCustomHeaders.
  destruct (JS.isEmpty raw || JS.isEmpty (JS.trim raw)); [by rewrite lookup_empty|].
  assert (Hcomma : forall k v, commaHeaders (JS.trim raw) !! k = Some v -> commaEntry k v).
  { intros k' v'. unfold commaHeaders.
    apply fold_addPair_entries; [apply splitChar_pieces|].
    intros ? ?. by rewrite lookup_empty. }
  unfold parses in Hfmt.
  destruct (JS.startsWithChar "{" (JS.trim raw)); [|apply Hcomma].
  destruct (JSON_parse (JS.trim raw)); [done | apply Hcomma].
Qed.

Lemma addPair_accepted (m : gmap string json) (kv : string * string) :
  acceptedPair kv -> addPair m (pairText kv) = setHeader m kv.
Proof.
  destruct kv as [k v]. intros (Hc & _ & _ & Hk & Hv & Hproto). simpl in *.
  unfold addPair, pairText, setHeader. cbn [fst snd].
  rewrite (indexOfChar_app ":" k v Hc), substring0_app, substringFrom_app.
  assert (Hlen : (0 <? String.length k)%nat = true).
  { destruct k; [done | reflexivity]. }
  rewrite Hlen, (isEmpty_false _ Hk), (isEmpty_false _ Hv). cbn [negb andb].
  by destruct (String.eqb_spec (JS.trim k) "__proto__").
Qed.

Lemma hasChar_pairText (kv : string * string) :
  acceptedPair kv -> JS.hasChar "," (pairText kv) = false.
Proof.
  destruct kv as [k v]. intros (_ & Hk & Hv & _). simpl in *.
  unfold pairText. simpl.
  change (String ":" v) with (":" +:+ v).
  by rewrite !hasChar_app, Hk, Hv.
Qed.

Lemma fold_addPair_accepted (pairs : list (string * string))
    (m : gmap string json) :
  Forall acceptedPair pairs ->
  fold_left addPair (map pairText pairs) m = fold_left setHeader pairs m.
Proof.
  revert m. induction pairs as [|kv rest IH]; intros m Hall; [done|].
  inversion Hall; subst. simpl. rewrite addPair_accepted by done. by apply IH.
Qed.

Lemma joinChar_nonempty (c : ascii) (pieces : list string) (l : string) :
  l <> "" -> JS.joinChar c (l :: pieces) <> "".
Proof. destruct l; [done|]. by destruct pieces. Qed.

Lemma parse_comma (raw : string) :
  JS.trim raw <> "" ->
  JS.startsWithChar "{" (JS.trim raw) = false ->
  parseCustomHeaders JSON_parse raw = commaHeaders (JS.trim raw).
Proof.
  intros Htrim Hfmt. unfold parseCustomHeaders.
  by rewrite (trim_nonempty_raw raw Htrim), Hfmt.
Qed.

Lemma commaHeaders_pairs (pairs : list (string * string)) :
  pairs <> [] ->
  Forall acceptedPair pairs ->
  commaHeaders (JS.joinChar "," (map pairText pairs))
  = fold_left setHeader pairs ∅.
Proof.
  intros Hne Hall. unfold commaHeaders. rewrite splitChar_join.
  - by apply fold_addPair_accepted.
  - by destruct pairs.
  - apply Forall_map. eapply Forall_impl; [exact Hall|].
    intros kv Hkv. by apply hasChar_pairText.
Qed.

Lemma joined_pairs_nonempty (pairs : list (string * string)) :
  pairs <> [] -> JS.joinChar "," (map pairText pairs) <> "".
Proof.
  destruct pairs as [|[k v] rest]; [done|]. intros _. simpl map.
  apply joinChar_nonempty. unfold pairText. simpl. by destruct k.
Qed.

(** The comma-separated format read back: a text that trims to
    [key:value] pairs joined by commas, each pair accepted, gives exactly
    these headers, keys and values trimmed, a later pair replacing an
    earlier one of the same key. *)
Theorem commaFormat_pairs (raw : string) (pairs : list (string * string)) :
  JS.trim raw = JS.joinChar "," (map pairText pairs) ->
  pairs <> [] ->
  Forall acceptedPair pairs ->
  JS.startsWithChar "{" (JS.trim raw) = false ->
  parseCustomHeaders JSON_parse raw = fold_left setHeader pairs ∅.
Proof.
  intros Htext Hne Hall Hfmt.
  rewrite parse_comma; [|rewrite Htext; by apply joined_pairs_nonempty|done].
  rewrite Htext. by apply commaHeaders_pairs.
Qed.

Lemma addPair_no_colon (m : gmap string json) (piece : string) :
  JS.hasChar ":" piece = false -> addPair m piece = m.
Proof.
  intros H. unfold addPair.
  assert (JS.indexOfChar ":" piece = None) as ->; [|done].
  induction piece as [|d s IH]; simpl in *; [done|].
  apply orb_false_elim in H as [H1 H2]. by rewrite H1, (IH H2).
Qed.

Lemma fold_addPair_no_colon (pieces : list string) (m : gmap string json) :
  Forall (fun l => JS.hasChar ":" l = false) pieces ->
  fold_left addPair pieces m = m.
Proof.
  revert m. induction pieces as [|piece rest IH]; intros m Hall; [done|].
  inversion Hall; subst. simpl. rewrite addPair_no_colon by done. by apply IH.
Qed.

Lemma splitChar_keeps_absent (c d : ascii) (s : string) :
  JS.hasChar d s = false ->
  Forall (fun l => JS.hasChar d l = false) (JS.splitChar c s).
Proof.
  induction s as [|e s IH]; simpl; [by repeat constructor|].
  intros H. apply orb_false_elim in H as [H1 H2]. specialize (IH H2).
  destruct (Ascii.eqb e c); [by constructor|].
  destruct (JS.splitChar c s) as [|l ls];
    [by repeat constructor; simpl; rewrite H1|].
  inversion IH; subst. constructor; [|done]. simpl. by rewrite H1.
Qed.

(** In the comma-separated format a stretch of text without colon adds
    nothing, before or after the other pairs: a value is cut at its first
    comma, and what follows the comma is dropped unless it holds a colon. *)
Theorem commaFormat_without_colon (text junk : string) :
  JS.hasChar ":" junk = false ->
  commaHeaders (text +:+ String "," junk) = commaHeaders text
  /\ commaHeaders (junk +:+ String "," text) = commaHeaders text.
Proof.
  intros H. unfold commaHeaders. rewrite !splitChar_append, !fold_left_app.
  split.
  - apply fold_addPair_no_colon. by apply splitChar_keeps_absent.
  - rewrite (fold_addPair_no_colon (JS.splitChar "," junk)); [done|].
    by apply splitChar_keeps_absent.
Qed.

Lemma list_to_map_assoc (members : list (string * json)) (k : string) :
  (list_to_map members : gmap string json) !! k = assoc k members.
Proof.
  induction members as [|[k' v] rest IH]; simpl; [apply lookup_empty|].
  destruct (String.eqb_spec k k') as [->|Hne].
  - apply lookup_insert_eq.
  - rewrite lookup_insert_ne by done. exact IH.
Qed.

(** The JSON format: a text that, trimmed, starts with a brace and parses
    to an object gives the members of that object, their values as they
    were parsed; when [JSON.parse] rejects it, the text is read in the
    comma-separated format instead. *)
Theorem jsonFormat_headers (raw : string) :
  JS.startsWithChar "{" (JS.trim raw) = true ->
  (forall members : list (string * json),
      JSON_parse (JS.trim raw) = Parsed (JObj members) ->
      forall k : string,
        parseCustomHeaders JSON_parse raw !! k = assoc k members)
  /\ (parses JSON_parse (JS.trim raw) = false ->
      parseCustomHeaders JSON_parse raw = commaHeaders (JS.trim raw)).
Proof.
  intros Hfmt.
  assert (Htrim : JS.trim raw <> "").
  { intros E. by rewrite E in Hfmt. }
  unfold parseCustomHeaders. rewrite (trim_nonempty_raw raw Htrim), Hfmt.
  split.
  - intros members -> k. apply list_to_map_assoc.
  - unfold parses. by destruct (JSON_parse (JS.trim raw)).
Qed.

(** *** Request headers *)

(** The precedence among the headers of a request: the held session id
    (on a call other than initialize) comes first, then the computed
    [Content-Length], then the custom headers, then the defaults
    [Content-Type] and, with a bearer token, [Authorization]; no other
    header is ever set. *)
Theorem request_headers_precedence (jsonRequest : json) (sid : option string)
    (k : string) :
  let attached :=
    match sid with
    | Some t => negb (isInitializeCall jsonRequest) && negb (JS.isEmpty t)
    | None => false
    end in
  headersFor jsonRequest sid !! k
  = if attached && String.eqb k "Mcp-Session-Id" then JStr <$> sid
    else if String.eqb k "Content-Length"
    then Some (JNum (JS.byteLength (JSON_stringify jsonRequest)))
    else match customHeaders !! k with
         | Some v => Some v
         | None =>
             if String.eqb k "Content-Type" then Some (JStr "application/json")
             else if String.eqb k "Authorization" then
               match BEARER_TOKEN with
               | Some t =>
                   if JS.isEmpty t then None else Some (JStr ("Bearer " +:+ t))
               | None => None
               end
             else None
         end.
Proof.
  intros attached.
  assert (Hdef : forall k',
    (<["Content-Length":=JNum (JS.byteLength (JSON_stringify jsonRequest))]>
       (defaultHeaders BEARER_TOKEN customHeaders)) !! k'
    = if String.eqb k' "Content-Length"
      then Some (JNum (JS.byteLength (JSON_stringify jsonRequest)))
      else match customHeaders !! k' with
           | Some v => Some v
           | None =>
               if String.eqb k' "Content-Type" then Some (JStr "application/json")
               else if String.eqb k' "Authorization" then
                 match BEARER_TOKEN with
                 | Some t =>
                     if JS.isEmpty t then None else Some (JStr ("Bearer " +:+ t))
                 | None => None
                 end
               else None
           end).
  { intros k'. destruct (String.eqb_spec k' "Content-Length") as [->|Hcl].
    - apply lookup_insert_eq.
    - rewrite lookup_insert_ne by done. unfold defaultHeaders.
      destruct (customHeaders !! k') as [v|] eqn:Ec.
      + by apply lookup_union_Some_l.
      + rewrite lookup_union_r by done. unfold baseHeaders.
        destruct (String.eqb_spec k' "Content-Type") as [->|Hct];
          [destruct BEARER_TOKEN as [t|]; [destruct (JS.isEmpty t)|];
           by simplify_map_eq|].
        destruct (String.eqb_spec k' "Authorization") as [->|Hau];
          destruct BEARER_TOKEN as [t|]; try destruct (JS.isEmpty t);
          by simplify_map_eq. }
  unfold request_headers, attached. destruct sid as [t|]; [|apply Hdef].
  destruct (negb (isInitializeCall jsonRequest) && negb (JS.isEmpty t));
    [|apply Hdef].
  cbn [andb]. destruct (String.eqb_spec k "Mcp-Session-Id") as [->|Hne].
  - apply lookup_insert_eq.
  - rewrite lookup_insert_ne by done. apply Hdef.
Qed.

Lemma request_headers_custom (jsonRequest : json) (sid : option string)
    (k : string) (v : json) :
  customHeaders !! k = Some v ->
  k <> "Content-Length" -> k <> "Mcp-Session-Id" ->
  headersFor jsonRequest sid !! k = Some v.
Proof.
  intros Hc H1 H2. unfold request_headers.
  assert (Hd : (<["Content-Length":=JNum (JS.byteLength (JSON_stringify jsonRequest))]>
                  (defaultHeaders BEARER_TOKEN customHeaders)) !! k = Some v).
  { rewrite lookup_insert_ne by done. by apply defaultHeaders_custom. }
  destruct sid as [t|]; [|exact Hd].
  destruct (negb (isInitializeCall jsonRequest) && negb (JS.isEmpty t));
    [|exact Hd].
  by rewrite lookup_insert_ne.
Qed.

Lemma fold_setHeader_last (pairs : list (string * string))
    (kv : string * string) :
  fold_left setHeader (pairs ++ [kv]) ∅ !! JS.trim (fst kv)
  = Some (JStr (JS.trim (snd kv))).
Proof. rewrite fold_left_app. simpl. unfold setHeader. apply lookup_insert_eq. Qed.

(** *** What every call preserves *)

Section Frame.

(** A relation between the states before and after, kept by every step
    that [makeRequest] is made of. *)
Variable R : world Server -> world Server -> Prop.
Hypothesis R_refl : forall w, R w w.
Hypothesis R_trans : forall a b c, R a b -> R b c -> R a c.
Hypothesis R_exchange : forall rq w, R w (snd (exchange serve rq w)).
Hypothesis R_onResponse : forall b headers w, R w (onResponse b headers w).
Hypothesis R_clear :
  forall w, R w (enter_recovery (set_session None false w)).
Hypothesis R_onSuccess : forall data w, R w (onSuccess JSON_parse data w).

Lemma frame_direct (jsonRequest : json) (w : world Server) (fuel : nat) :
  isInitializeCall jsonRequest = true ->
  R w (snd (makeRequest_ fuel jsonRequest w)).
Proof.
  intros Hi. destruct fuel as [|fuel]; [apply R_refl|].
  rewrite makeRequest_S. cbv zeta.
  pose proof (R_exchange
                (HttpRequest (headersFor jsonRequest (sessionId w)) jsonRequest) w) as Hx.
  destruct (exchange serve _ w) as [[status headers data|msg|] w1];
    simpl in Hx; [|done|done].
  rewrite Hi, andb_false_r.
  pose proof (R_onResponse true headers w1) as Hr.
  destruct ((200 <=? status) && (status <? 300)); simpl.
  - eapply R_trans; [exact Hx|]. eapply R_trans; [exact Hr|]. apply R_onSuccess.
  - eapply R_trans; [exact Hx | exact Hr].
Qed.

Variable jsonRequest : json.
Hypothesis R_failed :
  forall e w, R w (snd (recoveryFailed jsonRequest e w)).

Lemma frame_makeRequest (fuel : nat) (w : world Server) :
  R w (snd (makeRequest_ fuel jsonRequest w)).
Proof.
  revert w. induction fuel as [|fuel IH]; intros w; [apply R_refl|].
  rewrite makeRequest_S. cbv zeta.
  pose proof (R_exchange
                (HttpRequest (headersFor jsonRequest (sessionId w)) jsonRequest) w) as Hx.
  destruct (exchange serve _ w) as [[status headers data|msg|] w1];
    simpl in Hx; [|done|done].
  pose proof (R_onResponse (isInitializeCall jsonRequest) headers w1) as Hr.
  set (w2 := onResponse (isInitializeCall jsonRequest) headers w1) in *.
  assert (Hw2 : R w w2) by (eapply R_trans; eassumption).
  destruct ((status =? 404) && session_held w2 && negb (isInitializeCall jsonRequest)).
  - pose proof (R_clear w2) as Hc.
    set (w3 := enter_recovery (set_session None false w2)) in *.
    assert (Hw3 : R w w3) by (eapply R_trans; eassumption).
    unfold reinitializeAndRetry.
    pose proof (frame_direct initRequest w3 fuel eq_refl) as Hi.
    destruct (makeRequest_ fuel initRequest w3) as [[|e|] w4]; simpl in Hi.
    + pose proof (IH w4) as Hre.
      destruct (makeRequest_ fuel jsonRequest w4) as [[|e|] w5]; simpl in Hre.
      * simpl. eauto.
      * eapply R_trans; [|apply R_failed]. eauto.
      * simpl. eauto.
    + eapply R_trans; [|apply R_failed]. eauto.
    + simpl. eauto.
  - destruct ((200 <=? status) && (status <? 300)); simpl; [|done].
    eapply R_trans; [exact Hw2 | apply R_onSuccess].
Qed.

End Frame.

Lemma writes_refl (P : out_line -> Prop) (w : world Server) : writes P w w.
Proof. exists []. by rewrite app_nil_r. Qed.

Lemma writes_trans (P : out_line -> Prop) (a b c : world Server) :
  writes P a b -> writes P b c -> writes P a c.
Proof.
  intros (m1 & H1 & F1) (m2 & H2 & F2). exists (m1 ++ m2).
  split; [by rewrite H2, H1, app_assoc | by apply Forall_app].
Qed.

Lemma writes_same (P : out_line -> Prop) (w w' : world Server) :
  stdout w' = stdout w -> writes P w w'.
Proof. intros H. exists []. by rewrite app_nil_r. Qed.

Lemma writes_onResponse (P : out_line -> Prop) (b : bool)
    (headers : gmap string string) (w : world Server) :
  writes P w (onResponse b headers w).
Proof.
  apply writes_same. unfold onResponse.
  destruct (sessionHeader headers) as [sid|]; [|done].
  by destruct (negb (JS.isEmpty sid) && b).
Qed.

Lemma writes_exchange (P : out_line -> Prop) (rq : http_request)
    (w : world Server) :
  writes P w (snd (exchange serve rq w)).
Proof.
  apply writes_same. unfold exchange. by destruct (serve (upstream w) rq).
Qed.

Lemma writes_sendError (P : out_line -> Prop) (code : json) (msg : string)
    (id : jsval) (w : world Server) :
  P (ErrorReply code msg (default JNull id)) ->
  writes P w (sendError code msg id w).
Proof.
  intros H. exists [ErrorReply code msg (default JNull id)].
  split; [by destruct id | by repeat constructor].
Qed.

Lemma Forall_forwarded (P : out_line -> Prop) (data : string) :
  (forall line, parses JSON_parse line = true -> P (Forwarded line)) ->
  Forall P (map Forwarded (forwarded JSON_parse data)).
Proof.
  intros H. apply Forall_map, Forall_forall. intros line Hin.
  apply H. unfold forwarded in Hin.
  apply list_elem_of_In, List.filter_In in Hin. tauto.
Qed.

Lemma writes_onSuccess (P : out_line -> Prop) (data : string)
    (w : world Server) :
  (forall line, parses JSON_parse line = true -> P (Forwarded line)) ->
  writes P w (onSuccess JSON_parse data w).
Proof.
  intros H. rewrite onSuccess_spec.
  exists (map Forwarded (forwarded JSON_parse data)).
  split; [done | by apply Forall_forwarded].
Qed.

(** What [makeRequest] writes while it follows one message: forwarded
    lines that [JSON.parse] accepts, and error objects under the id of
    that message. *)
Lemma makeRequest_writes (P : out_line -> Prop) (jsonRequest : json)
    (fuel : nat) (w : world Server) :
  (forall line, parses JSON_parse line = true -> P (Forwarded line)) ->
  (forall code msg,
      P (ErrorReply code msg (default JNull (prop jsonRequest "id")))) ->
  writes P w (snd (makeRequest_ fuel jsonRequest w)).
Proof.
  intros Hf He.
  apply (frame_makeRequest (writes P)).
  - apply writes_refl.
  - apply writes_trans.
  - apply writes_exchange.
  - apply writes_onResponse.
  - intros w0. by apply writes_same.
  - intros data w0. by apply writes_onSuccess.
  - intros e w0. apply writes_sendError, He.
Qed.

(** *** Invariants of the handling of a line *)

Lemma on_line_writes (P : out_line -> Prop) (fuel : nat) (line : string)
    (w : world Server) :
  (forall l, parses JSON_parse l = true -> P (Forwarded l)) ->
  (forall code msg, P (ErrorReply code msg (lineId JSON_parse line))) ->
  writes P w (snd (on_line_ fuel line w)).
Proof.
  intros Hf He. unfold on_line, lineId in *.
  destruct (JS.isEmpty (JS.trim line)); [apply writes_refl|].
  destruct (JSON_parse line) as [v|m].
  2:{ apply writes_sendError, He. }
  assert (Hm : writes P w (snd (makeRequest_ fuel v w)))
    by (by apply makeRequest_writes).
  destruct v as [|b|n|t|items|members]; [apply writes_refl|..].
  all: destruct (negb (strictEqStr _ "2.0")); [apply writes_sendError, He|].
  all: destruct (negb (is_Some_b _) && truthy' _);
    [by destruct (makeRequest_ fuel _ w) as [[|e|] w']|].
  all: destruct (truthy' _ && is_Some_b _ && negb (is_null _));
    [|apply writes_sendError, He].
  all: destruct (makeRequest_ fuel _ w) as [[|e|] w']; simpl in *; try done.
  all: eapply writes_trans; [exact Hm|]; apply writes_sendError, He.
Qed.

(** Whatever the line and the upstream, handling a line only adds to
    stdout, and every line it adds is an error object or a forwarded line
    that [JSON.parse] accepts. *)
Theorem output_readable (fuel : nat) (line : string) (w : world Server) :
  writes (fun o => readable JSON_parse o = true) w (snd (on_line_ fuel line w)).
Proof. by apply on_line_writes. Qed.

(** Every error object written while a line is handled, the replies of a
    failed recovery included, carries the id of the message on that line,
    and [null] when the message has no id or the line does not parse. *)
Theorem replies_carry_line_id (fuel : nat) (line : string) (w : world Server) :
  writes (repliesTo (lineId JSON_parse line)) w (snd (on_line_ fuel line w)).
Proof. by apply on_line_writes. Qed.

Lemma sessionConsistent_same (w w' : world Server) :
  sessionId w' = sessionId w -> isInitialized w' = isInitialized w ->
  sessionConsistent w -> sessionConsistent w'.
Proof.
  unfold sessionConsistent, session_held. intros -> ->. done.
Qed.

Lemma makeRequest_sessionConsistent (fuel : nat) (jsonRequest : json)
    (w : world Server) :
  sessionConsistent w -> sessionConsistent (snd (makeRequest_ fuel jsonRequest w)).
Proof.
  apply (frame_makeRequest (fun a b => sessionConsistent a -> sessionConsistent b)).
  - done.
  - intros a b c Hab Hbc Ha. by apply Hbc, Hab.
  - intros rq w0. apply sessionConsistent_same;
      unfold exchange; by destruct (serve (upstream w0) rq).
  - intros b headers w0 H0. unfold onResponse.
    destruct (sessionHeader headers) as [sid|]; [|done].
    destruct (JS.isEmpty sid) eqn:E; simpl; [done|].
    destruct b; [|done].
    unfold sessionConsistent, session_held. simpl. rewrite E. split; [done|].
    intros [= ->]. done.
  - intros w0 _. by split.
  - intros data w0. rewrite onSuccess_spec. by apply sessionConsistent_same.
  - intros e w0. by apply sessionConsistent_same.
Qed.

(** The session variables stay consistent: if the initialized flag is set
    exactly when a non-empty session token is held before a line is
    handled, it is so afterwards, whatever the line and the upstream. *)
Theorem session_consistent (fuel : nat) (line : string) (w : world Server) :
  sessionConsistent w -> sessionConsistent (snd (on_line_ fuel line w)).
Proof.
  intros H. unfold on_line.
  destruct (JS.isEmpty (JS.trim line)); [done|].
  destruct (JSON_parse line) as [v|m]; [|by apply (sessionConsistent_same w)].
  pose proof (makeRequest_sessionConsistent fuel v w H) as Hm.
  destruct v as [|b|n|t|items|members]; [done|..].
  all: destruct (negb (strictEqStr _ "2.0")); [by apply (sessionConsistent_same w)|].
  all: destruct (negb (is_Some_b _) && truthy' _);
    [by destruct (makeRequest_ fuel _ w) as [[|e|] w']|].
  all: destruct (truthy' _ && is_Some_b _ && negb (is_null _));
    [|by apply (sessionConsistent_same w)].
  all: destruct (makeRequest_ fuel _ w) as [[|e|] w']; simpl in *; try done.
  all: by apply (sessionConsistent_same w').
Qed.

(** *** Error replies and recoveries *)

Lemma errorReplies_app (w w' : world Server) (more : list out_line) :
  stdout w' = stdout w ++ more ->
  errorReplies w' = (errorReplies w + length (List.filter isErrorReply more))%nat.
Proof.
  intros H. unfold errorReplies. by rewrite H, List.filter_app, length_app.
Qed.


Lemma errorReplies_onSuccess (data : string) (w : world Server) :
  errorReplies (onSuccess JSON_parse data w) = errorReplies w.
Proof.
  rewrite onSuccess_spec.
  rewrite (errorReplies_app w _ (map Forwarded (forwarded JSON_parse data)))
    by done.
  assert (List.filter isErrorReply (map Forwarded (forwarded JSON_parse data)) = [])
    as ->; [|simpl; lia].
  induction (forwarded JSON_parse data); [done | exact IHl].
Qed.

Lemma errorReplies_sendError (code : json) (msg : string) (id : jsval)
    (w : world Server) :
  errorReplies (sendError code msg id w) = S (errorReplies w).
Proof.
  rewrite (errorReplies_app w _ [ErrorReply code msg (default JNull id)]).
  - simpl. lia.
  - by destruct id.
Qed.


Lemma initialize_quiet (fuel : nat) (w : world Server) :
  recoveries (snd (makeRequest_ fuel initRequest w)) = recoveries w
  /\ errorReplies (snd (makeRequest_ fuel initRequest w)) = errorReplies w.
Proof.
  apply (frame_direct
           (fun a b => recoveries b = recoveries a
                       /\ errorReplies b = errorReplies a));
    [done| |..|done].
  - intros a b c [H1 H2] [H3 H4]. split; congruence.
  - intros rq w0. unfold exchange. by destruct (serve (upstream w0) rq).
  - intros b headers w0. unfold onResponse.
    destruct (sessionHeader headers) as [sid|]; [|done].
    by destruct (negb (JS.isEmpty sid) && b).
  - intros data w0. rewrite errorReplies_onSuccess, onSuccess_spec. done.
Qed.

(** The error objects a call writes are counted by the recoveries it
    enters: none when the promise resolves, and as many as recoveries were
    entered when it is rejected. *)
Lemma replies_count (fuel : nat) (jsonRequest : json)
    (w : world Server) :
  match fst (makeRequest_ fuel jsonRequest w) with
  | Resolved =>
      errorReplies (snd (makeRequest_ fuel jsonRequest w)) = errorReplies w
  | Rejected _ =>
      (errorReplies (snd (makeRequest_ fuel jsonRequest w)) + recoveries w
       = errorReplies w + recoveries (snd (makeRequest_ fuel jsonRequest w)))%nat
  | Pending => True
  end.
Proof.
  revert w. induction fuel as [|fuel IH]; intros w; [done|].
  rewrite makeRequest_S. cbv zeta. unfold exchange.
  destruct (serve (upstream w) _) as [[status headers data|msg|] up];
    [|unfold errorReplies; simpl; lia|unfold errorReplies; simpl; lia].
  set (w1 := onResponse _ headers _).
  assert (Hw1 : recoveries w1 = recoveries w /\ errorReplies w1 = errorReplies w).
  { unfold w1, onResponse. destruct (sessionHeader headers) as [sid|]; [|done].
    by destruct (negb (JS.isEmpty sid) && isInitializeCall jsonRequest). }
  destruct Hw1 as [Hr1 He1].
  destruct ((status =? 404) && session_held w1 && negb (isInitializeCall jsonRequest)).
  - unfold reinitializeAndRetry.
    set (w2 := enter_recovery (set_session None false w1)).
    assert (Hw2 : recoveries w2 = S (recoveries w) /\ errorReplies w2 = errorReplies w).
    { split; [simpl; by rewrite Hr1 | by rewrite <- He1]. }
    destruct Hw2 as [Hr2 He2].
    destruct (initialize_quiet fuel w2) as [Hr3 He3].
    destruct (makeRequest_ fuel initRequest w2) as [[|e|] w3]; simpl in Hr3, He3.
    + specialize (IH w3).
      destruct (makeRequest_ fuel jsonRequest w3) as [[|e|] w4]; simpl in IH.
      * simpl. lia.
      * unfold recoveryFailed. cbn [fst snd].
        rewrite errorReplies_sendError. simpl recoveries. lia.
      * done.
    + unfold recoveryFailed. cbn [fst snd].
      rewrite errorReplies_sendError. simpl recoveries. lia.
    + done.
  - destruct ((200 <=? status) && (status <? 300)); cbn [fst snd].
    + rewrite errorReplies_onSuccess. lia.
    + lia.
Qed.

(** *** Dispatched and undispatched lines *)

Lemma on_line_dispatched (fuel : nat) (line : string) (w : world Server)
    (v : json) :
  JS.trim line <> "" ->
  JSON_parse line = Parsed v ->
  dispatches JSON_parse line = true ->
  on_line_ fuel line w
  = match makeRequest_ fuel v w with
    | (Resolved, w') => (Done, w')
    | (Rejected e, w') =>
        (Done, if is_Some_b (prop v "id") then rejectedRequest v e w' else w')
    | (Pending, w') => (Unsettled, w')
    end.
Proof.
  intros Hne Hp Hd. unfold dispatches in Hd. rewrite Hp in Hd.
  apply andb_prop in Hd as [Hd Hid]. apply andb_prop in Hd as [Hv Hm].
  unfold on_line. rewrite (isEmpty_false _ Hne), Hp.
  destruct v as [|b|n|t|items|members]; try done.
  rewrite Hv, Hm. cbn [negb].
  destruct (prop (JObj members) "id") as [id|]; cbn [is_Some_b negb andb].
  - rewrite Hid. by destruct (makeRequest_ fuel (JObj members) w) as [[|e|] w'].
  - by destruct (makeRequest_ fuel (JObj members) w) as [[|e|] w'].
Qed.

Lemma sent_first (fuel : nat) (jsonRequest : json) (w : world Server) :
  exists more : list http_request,
    sent (snd (makeRequest_ (S fuel) jsonRequest w))
    = sent w ++ HttpRequest (headersFor jsonRequest (sessionId w)) jsonRequest
              :: more.
Proof.
  rewrite makeRequest_S. cbv zeta. unfold exchange.
  destruct (serve (upstream w) _) as [[status headers data|msg|] up];
    [|by exists []|by exists []].
  set (w1 := onResponse _ headers _).
  assert (Hw1 : sent w1
                = sent w ++ [HttpRequest (headersFor jsonRequest (sessionId w)) jsonRequest]).
  { unfold w1, onResponse. destruct (sessionHeader headers) as [sid|]; [|done].
    by destruct (negb (JS.isEmpty sid) && isInitializeCall jsonRequest). }
  destruct ((status =? 404) && session_held w1 && negb (isInitializeCall jsonRequest)).
  - unfold reinitializeAndRetry.
    set (w2 := enter_recovery (set_session None false w1)).
    destruct (sent_extends fuel initRequest w2) as [m1 H1].
    destruct (makeRequest_ fuel initRequest w2) as [[|e|] w3]; simpl in H1.
    + destruct (sent_extends fuel jsonRequest w3) as [m2 H2].
      destruct (makeRequest_ fuel jsonRequest w3) as [[|e|] w4]; simpl in H2;
        exists (m1 ++ m2); simpl; rewrite H2, H1; simpl;
        by rewrite Hw1, <- !app_assoc.
    + exists m1. simpl. rewrite H1. simpl. by rewrite Hw1, <- app_assoc.
    + exists m1. simpl. rewrite H1. simpl. by rewrite Hw1, <- app_assoc.
  - destruct ((200 <=? status) && (status <? 300)).
    + rewrite onSuccess_spec. simpl. exists []. exact Hw1.
    + simpl. exists []. exact Hw1.
Qed.

(** A line reaches the upstream exactly when it is not blank and its
    message is dispatched: otherwise nothing is put on the wire and the
    upstream is left alone; if so, the first request on the wire carries
    that message under the headers built from the current session. *)
Theorem dispatch_iff (fuel : nat) (line : string) (w : world Server) :
  (JS.trim line = "" \/ dispatches JSON_parse line = false ->
   sent (snd (on_line_ fuel line w)) = sent w
   /\ upstream (snd (on_line_ fuel line w)) = upstream w)
  /\ (forall v : json,
        JS.trim line <> "" -> JSON_parse line = Parsed v ->
        dispatches JSON_parse line = true ->
        exists more : list http_request,
          sent (snd (on_line_ (S fuel) line w))
          = sent w ++ HttpRequest (headersFor v (sessionId w)) v :: more).
Proof.
  split.
  - intros H. unfold on_line, dispatches in *.
    destruct (JS.isEmpty (JS.trim line)) eqn:E; [done|].
    destruct H as [H|H]; [by rewrite H in E|].
    destruct (JSON_parse line) as [v|m]; [|done].
    destruct v as [|b|n|t|items|members]; try done.
    destruct (strictEqStr (prop (JObj members) "jsonrpc") "2.0"); [|done].
    cbn [negb andb] in *.
    destruct (truthy' (prop (JObj members) "method")); cbn [andb] in *;
      [|by rewrite andb_false_r].
    destruct (prop (JObj members) "id") as [[]|]; done.
  - intros v Hne Hp Hd. rewrite (on_line_dispatched (S fuel) line w v Hne Hp Hd).
    destruct (sent_first fuel v w) as [more Hmore]. exists more.
    destruct (makeRequest_ (S fuel) v w) as [[|e|] w']; simpl in Hmore; try done.
    by destruct (is_Some_b (prop v "id")).
Qed.

(** A line that is not blank and is not dispatched gets exactly one error
    object, with code -32700 when it does not parse and -32600 otherwise,
    under the id of its message; except that the handler throws, writing
    nothing, when the line is the JSON value [null]. *)
Theorem undispatched_reply (fuel : nat) (line : string) (w : world Server) :
  JS.trim line <> "" ->
  dispatches JSON_parse line = false ->
  (JSON_parse line = Parsed JNull /\ on_line_ fuel line w = (Threw, w))
  \/ exists (code : Z) (msg : string),
       (code = -32700 /\ parses JSON_parse line = false
        \/ code = -32600 /\ parses JSON_parse line = true)
       /\ on_line_ fuel line w
          = (Done, sendError (JNum code) msg (Some (lineId JSON_parse line)) w).
Proof.
  intros Hne Hd. unfold on_line, dispatches, lineId, parses in *.
  rewrite (isEmpty_false _ Hne).
  destruct (JSON_parse line) as [v|m].
  2:{ right. exists (-32700), ("Parse error: " +:+ m). split; [by left | done]. }
  destruct v as [|b|n|t|items|members]; [by left|..].
  1-4: right; exists (-32600); eexists; split; [by right | reflexivity].
  right. exists (-32600).
  destruct (strictEqStr (prop (JObj members) "jsonrpc") "2.0");
    cbn [negb andb] in *.
  - destruct (truthy' (prop (JObj members) "method")); cbn [andb] in *.
    + destruct (prop (JObj members) "id") as [[]|]; try done.
      eexists. split; [by right | reflexivity].
    + rewrite andb_false_r.
      eexists. split; [by right|].
      by destruct (prop (JObj members) "id").
  - eexists. split; [by right|].
    by destruct (prop (JObj members) "id").
Qed.

(** For a dispatched message whose promise settles, the error objects
    written are none when it resolves; when it is rejected, one for each
    recovery entered, and one more for a request (a message with an
    id). *)
Theorem line_reply_count (fuel : nat) (line : string) (w : world Server)
    (v : json) :
  JS.trim line <> "" ->
  JSON_parse line = Parsed v ->
  dispatches JSON_parse line = true ->
  (fst (makeRequest_ fuel v w) = Resolved ->
   errorReplies (snd (on_line_ fuel line w)) = errorReplies w)
  /\ (forall e : js_error,
        fst (makeRequest_ fuel v w) = Rejected e ->
        (errorReplies (snd (on_line_ fuel line w)) + recoveries w
         = errorReplies w + recoveries (snd (on_line_ fuel line w))
           + (if is_Some_b (prop v "id") then 1 else 0))%nat).
Proof.
  intros Hne Hp Hd. rewrite (on_line_dispatched fuel line w v Hne Hp Hd).
  pose proof (replies_count fuel v w) as H.
  destruct (makeRequest_ fuel v w) as [[|e|] w']; simpl in H |- *;
    split; try done.
  intros e' _. destruct (is_Some_b (prop v "id")); [|lia].
  unfold rejectedRequest. rewrite errorReplies_sendError. simpl recoveries. lia.
Qed.

(** *** Outcomes of a recovery *)

(** A recovery that succeeds: after the 404, a synthetic initialize
    answered 2xx and the resent request answered 2xx resolve the promise.
    The answer of the initialize is printed before the answer of the
    request, the session is the one the initialize handed out (none if it
    handed out none), the resent request carries that session id, and no
    error object is written. *)
Theorem recovery_succeeds (fuel : nat) (jsonRequest : json) (w : world Server)
    (h1 h2 h3 : gmap string string) (d1 d2 d3 : string) (s2 s3 : Z)
    (u1 u2 u3 : Server) :
  let rq1 := HttpRequest (headersFor jsonRequest (sessionId w)) jsonRequest in
  let rq2 := HttpRequest (headersFor initRequest None) initRequest in
  let rq3 := HttpRequest (headersFor jsonRequest (issuedToken h2)) jsonRequest in
  isInitializeCall jsonRequest = false ->
  session_held w = true ->
  serve (upstream w) rq1 = (Response 404 h1 d1, u1) ->
  serve u1 rq2 = (Response s2 h2 d2, u2) ->
  (200 <=? s2) && (s2 <? 300) = true ->
  serve u2 rq3 = (Response s3 h3 d3, u3) ->
  (200 <=? s3) && (s3 <? 300) = true ->
  makeRequest_ (S (S fuel)) jsonRequest w
  = (Resolved,
     World (issuedToken h2) (bool_decide (issuedToken h2 <> None))
       ((stdout w ++ map Forwarded (forwarded JSON_parse d2))
          ++ map Forwarded (forwarded JSON_parse d3))
       (sent w ++ [rq1; rq2; rq3]) (S (recoveries w)) u3)
  /\ (forall tok : string,
        issuedToken h2 = Some tok ->
        req_headers rq3 !! "Mcp-Session-Id" = Some (JStr tok)).
Proof.
  intros rq1 rq2 rq3 Hi Hh Hs1 Hs2 H2 Hs3 H3. split.
  - rewrite (makeRequest_recovers (S fuel) jsonRequest w h1 d1 u1 Hi Hh Hs1).
    unfold reinitializeAndRetry.
    rewrite (initialize_resolves fuel _ _ _ u1 u2 s2 h2 d2 Hs2 H2).
    rewrite (makeRequest_direct fuel jsonRequest _ s3 h3 d3 u3).
    + rewrite H3, Hi, onResponse_other, onSuccess_spec. simpl.
      by rewrite <- !app_assoc.
    + exact Hs3.
    + assert ((s3 =? 404) = false) as -> by lia. done.
  - intros tok Htok. unfold rq3. rewrite Htok. cbn [req_headers].
    unfold request_headers. rewrite Hi.
    assert (JS.isEmpty tok = false) as ->; [|apply lookup_insert_eq].
    unfold issuedToken in Htok. destruct (sessionHeader h2) as [sid|]; [|done].
    destruct (JS.isEmpty sid) eqn:E; [done|]. by simplify_eq.
Qed.


(** *** The earlier variant *)

(** In the earlier variant the custom headers replace every default,
    [Content-Length] and [Accept] included, and no other header is set. *)
Theorem legacy_headers_precedence (jsonRequest : json) (k : string) :
  legacy_headers JSON_stringify customHeaders jsonRequest !! k
  = match customHeaders !! k with
    | Some v => Some v
    | None =>
        if String.eqb k "Accept" then Some (JStr "application/json")
        else if String.eqb k "Content-Length"
        then Some (JNum (JS.byteLength (JSON_stringify jsonRequest)))
        else if String.eqb k "Content-Type" then Some (JStr "application/json")
        else None
    end.
Proof.
  unfold legacy_headers. destruct (customHeaders !! k) as [v|] eqn:Ec.
  - by apply lookup_union_Some_l.
  - rewrite lookup_union_r by done.
    destruct (String.eqb_spec k "Accept") as [->|H1]; [by simplify_map_eq|].
    destruct (String.eqb_spec k "Content-Length") as [->|H2];
      [by simplify_map_eq|].
    destruct (String.eqb_spec k "Content-Type") as [->|H3];
      by simplify_map_eq.
Qed.

(** In the earlier variant every line that parses is sent, whatever its
    message, and a status outside 2xx is answered by one error object
    whose id is the message's id only when that id is truthy: the ids 0,
    the empty string and [false] are replaced by [null], as is a missing
    id. *)
Theorem legacy_error_reply (line : string) (w : world Server) (v : json)
    (status : Z) (headers : gmap string string) (data : string) (up : Server) :
  JS.trim line <> "" ->
  JSON_parse line = Parsed v ->
  v <> JNull ->
  serve (upstream w) (HttpRequest (legacy_headers JSON_stringify customHeaders v) v)
  = (Response status headers data, up) ->
  (200 <=? status) && (status <? 300) = false ->
  legacy_on_line JSON_parse JSON_stringify customHeaders serve line w
  = (Done,
     World (sessionId w) (isInitialized w)
       (stdout w
          ++ [ErrorReply (JNum (-32000))
                ("HTTP " +:+ JS.showZ status +:+ ": " +:+ JS.substring0 500 data)
                (if truthy' (prop v "id") then lineId JSON_parse line else JNull)])
       (sent w ++ [HttpRequest (legacy_headers JSON_stringify customHeaders v) v])
       (recoveries w) up).
Proof.
  intros Hne Hp Hv Hs H2. unfold legacy_on_line, lineId.
  rewrite (isEmpty_false _ Hne), Hp, (exchange_eq _ _ _ _ Hs), H2.
  unfold legacy_reply, legacy_id, js_or.
  destruct v as [|b|n|t|items|members]; try done.
  destruct (prop (JObj members) "id") as [id|]; [|done].
  cbn [truthy']. by destruct (truthy id).
Qed.

(** *** The error chain, from the body to the reply *)



End Properties.

(** ** The bridge on concrete inputs *)

Section Scenarios.

Import Sample.

(** *** The string and JSON helpers *)

Example trim_both_ends :
  JS.trim (String "009" (" a b " +:+ String JS.LF "")) = "a b".
Proof. reflexivity. Qed.

Example split_keeps_empty_pieces :
  JS.split_nl (JS.join_nl ["a"; ""; "b"]) = ["a"; ""; "b"]
  /\ JS.split_nl "" = [""].
Proof. by vm_compute. Qed.

Example ToString_array :
  ToString (JArr [JNum 1; JNull; JStr "x"; JArr []; JObj []])
  = "1,,x,,[object Object]".
Proof. reflexivity. Qed.

Example parse_toolsListLine : parse toolsListLine = Parsed toolsList.
Proof. by vm_compute. Qed.

Example parse_last_member_wins :
  parse ("{" +:+ quote "id" +:+ ":1," +:+ quote "id" +:+ ":2}")
  = Parsed (JObj [("id", JNum 2)]).
Proof. by vm_compute. Qed.

Example error_of_null_body :
  httpError parse 500 "null"
  = JsError "HTTP 500: null" (Some (JNum (-32000))) (Some 500).
Proof. by vm_compute. Qed.

Example error_of_rest_body :
  httpError parse 403
    ("{" +:+ quote "code" +:+ ":" +:+ quote "rest_forbidden" +:+ ","
         +:+ quote "message" +:+ ":" +:+ quote "Sorry" +:+ ","
         +:+ quote "data" +:+ ":{" +:+ quote "status" +:+ ":403}}")
  = JsError "Forbidden: Sorry (HTTP 403)" (Some (JNum (-32000))) (Some 403).
Proof. by vm_compute. Qed.

Example error_of_rpc_body :
  httpError parse 500
    ("{" +:+ quote "error" +:+ ":{" +:+ quote "code" +:+ ":-32601,"
         +:+ quote "message" +:+ ":" +:+ quote "Method not found" +:+ "}}")
  = JsError "Method not found" (Some (JNum (-32601))) (Some 500).
Proof. by vm_compute. Qed.

(** The session flow: an initialize answered with the session id [S2], a
    request answered 200, and a request answered 404, whose recovery
    succeeds. The second request carries [S2]; after the 404 the synthetic
    initialize goes out without session id and the third request is resent
    under the new id; the answer of the synthetic initialize is printed
    too. *)
Example session_flow :
  let w := run_lines 3
             [request_line "initialize" "1"; toolsListLine;
              request_line "tools/call" "8"]
             (start None
                [Response 200 handsOut lineA;
                 Response 200 ∅ lineB;
                 Response 404 ∅ "";
                 Response 200 {[ "mcp-session-id" := "S3" ]} "{}";
                 Response 200 ∅ "[]"]) in
  sessionHeadersSent w
  = [None; Some (JStr "S2"); Some (JStr "S2"); None; Some (JStr "S3")]
  /\ stdout w = [Forwarded lineA; Forwarded lineB; Forwarded "{}"; Forwarded "[]"]
  /\ session w = (Some "S3", true)
  /\ recoveries w = 1%nat.
Proof. by vm_compute. Qed.

(** *** Recovery without end *)





(** *** The theorems at concrete inputs *)


Lemma C5_request_headers_witness :
  request_headers stringify (Some "jwt") {[ "Content-Type" := JStr "text/plain" ]}
    initRequest (Some "S1") !! "Mcp-Session-Id" = None
  /\ request_headers stringify (Some "jwt") {[ "Content-Type" := JStr "text/plain" ]}
       toolsList (Some "S1") !! "Mcp-Session-Id" = Some (JStr "S1")
  /\ request_headers stringify (Some "jwt") {[ "Content-Type" := JStr "text/plain" ]}
       toolsList (Some "S1") !! "Content-Type" = Some (JStr "text/plain")
  /\ request_headers stringify (Some "jwt") {[ "content-type" := JStr "text/plain" ]}
       toolsList (Some "S1") !! "Content-Type" = Some (JStr "application/json").
Proof.
  pose proof (C5_request_headers stringify (Some "jwt")
                {[ "Content-Type" := JStr "text/plain" ]} initRequest (Some "S1"))
    as (H1 & _).
  pose proof (C5_request_headers stringify (Some "jwt")
                {[ "Content-Type" := JStr "text/plain" ]} toolsList (Some "S1"))
    as (_ & H2 & H3 & _).
  pose proof (C5_request_headers stringify (Some "jwt")
                {[ "content-type" := JStr "text/plain" ]} toolsList (Some "S1"))
    as (_ & _ & _ & H4).
  split; [exact (H1 eq_refl)|].
  split; [apply (H2 "S1" eq_refl eq_refl); discriminate|].
  split; [exact (H3 "Content-Type" (JStr "text/plain") (or_introl eq_refl) eq_refl)|].
  exact (H4 eq_refl).
Defined.

Lemma C7_success_body_witness :
  stdout (snd (makeRequest parse stringify None ∅ scripted 1 toolsList
                 (start None [Response 200 ∅ (JS.join_nl [lineA; lineB])])))
  = [Forwarded lineA; Forwarded lineB]
  /\ stdout (snd (makeRequest parse stringify None ∅ scripted 1 toolsList
                    (start None [Response 200 ∅ (JS.join_nl [notJson; lineA])])))
     = [Forwarded lineA].
Proof.
  split.
  - pose proof (C7_success_body parse stringify None ∅ scripted 0 toolsList
                  (start None [Response 200 ∅ (JS.join_nl [lineA; lineB])])
                  200 ∅ (JS.join_nl [lineA; lineB]) [] eq_refl eq_refl)
      as (_ & _ & _ & H & _).
    apply (H [lineA; lineB]); [reflexivity | discriminate | reflexivity | |];
      repeat constructor.
  - pose proof (C7_success_body parse stringify None ∅ scripted 0 toolsList
                  (start None [Response 200 ∅ (JS.join_nl [notJson; lineA])])
                  200 ∅ (JS.join_nl [notJson; lineA]) [] eq_refl eq_refl)
      as (_ & _ & _ & _ & H).
    apply (H lineA notJson); [by left | reflexivity | reflexivity | reflexivity
                              | discriminate | reflexivity | reflexivity].
Defined.

Lemma C8_parse_error_witness :
  run None ∅ [] None 1 (String "009" "  ") = (Done, start None [])
  /\ run None ∅ [] None 1 notJson
     = (Done,
        World None false
          [ErrorReply (JNum (-32700)) "Parse error: Unexpected token in JSON" JNull]
          [] 0%nat []).
Proof.
  split.
  - exact (proj1
             (C8_parse_error parse stringify None ∅ scripted 1
                (String "009" "  ") (start None []))
             eq_refl).
  - apply (proj2
             (C8_parse_error parse stringify None ∅ scripted 1 notJson
                (start None [])));
      [discriminate | reflexivity].
Defined.

Lemma C9_non_initialize_response_witness :
  session (snd (makeRequest parse stringify None ∅ scripted 1 toolsList
                  (start (Some "S1") [Response 500 handsOut ""])))
  = (Some "S1", true)
  /\ makeRequest parse stringify None ∅ scripted 2 toolsList
       (start (Some "S1") [Response 404 handsOut ""])
     = reinitializeAndRetry (makeRequest parse stringify None ∅ scripted 1) toolsList
         (World None false []
            [HttpRequest (request_headers stringify None ∅ toolsList (Some "S1")) toolsList]
            1%nat []).
Proof.
  split.
  - pose proof (C9_non_initialize_response parse stringify None ∅ scripted 0
                  toolsList (start (Some "S1") [Response 500 handsOut ""])
                  500 handsOut "" [] eq_refl eq_refl) as (_ & H & _).
    destruct (H eq_refl) as [Hs Hi]. unfold session. by rewrite Hs, Hi.
  - exact (proj2 (proj2
             (C9_non_initialize_response parse stringify None ∅ scripted 1
                toolsList (start (Some "S1") [Response 404 handsOut ""])
                404 handsOut "" [] eq_refl eq_refl))
             eq_refl).
Defined.


(** *** Failed recoveries *)

(** C2 fails on the code. The request [tools/list] with id 7, sent under a
    held session, is answered 404; the synthetic initialize is answered
    500. Two error replies are written for the one request, both under id
    7: one by [reinitializeAndRetry], one by the handler of the line. *)
Lemma C2_failed_recovery_two_replies :
  run None ∅ [Response 404 ∅ ""; Response 500 ∅ ""] (Some "S1") 3 toolsListLine
  = (Done,
     World None false
       [ErrorReply (JNum (-32000))
          "Session expired and re-initialization failed: HTTP 500" (JNum 7);
        ErrorReply (JNum (-32000)) "HTTP 500" (JNum 7)]
       [HttpRequest (request_headers stringify None ∅ toolsList (Some "S1")) toolsList;
        HttpRequest (request_headers stringify None ∅ initRequest None) initRequest]
       1%nat []).
Proof. by vm_compute. Qed.

(** C3 fails on the code. The notification [notifications/initialized],
    sent under a held session, is answered 404; the synthetic initialize is
    answered 500. [reinitializeAndRetry] writes an error reply with id
    [null] to stdout. *)
Lemma C3_notification_failed_recovery_reply :
  stdout (snd (run None ∅ [Response 404 ∅ ""; Response 500 ∅ ""] (Some "S1") 3
                 initializedLine))
  = [ErrorReply (JNum (-32000))
       "Session expired and re-initialization failed: HTTP 500" JNull].
Proof. by vm_compute. Qed.

(** The lines of a 2xx body are printed for a notification as for a
    request. *)
Lemma notification_body_forwarded :
  stdout (snd (run None ∅ [Response 200 ∅ "{}"] None 1 initializedLine))
  = [Forwarded "{}"].
Proof. by vm_compute. Qed.

(** *** Counterexamples to the claims as stated *)


(** C5 fails on the code as stated: with [Mcp-Session-Id] among the custom
    headers, the request of an [initialize] message carries that header. *)
Lemma C5_initialize_carries_configured_header :
  sessionHeadersSent
    (snd (run None {[ "Mcp-Session-Id" := JStr "configured" ]}
            [Response 200 ∅ ""] (Some "S1") 1 (request_line "initialize" "1")))
  = [Some (JStr "configured")].
Proof. by vm_compute. Qed.

(** C8 fails on the code as stated: a line of three spaces is not valid
    JSON, and the handler returns without writing anything. *)
Lemma C8_blank_line_ignored :
  parse "   " = SyntaxError "Unexpected token in JSON"
  /\ run None ∅ [] None 1 "   " = (Done, start None []).
Proof. by vm_compute. Qed.

(** C9 fails on the code as stated: the 404 answered to [tools/list]
    clears the session token and the initialized flag that were held. *)
Lemma C9_not_found_clears_session :
  session (start (Some "S1")
             [Response 404 {[ "mcp-session-id" := "X" ]} ""; NetError "socket hang up"])
  = (Some "S1", true)
  /\ session (snd (run None ∅
                     [Response 404 {[ "mcp-session-id" := "X" ]} "";
                      NetError "socket hang up"]
                     (Some "S1") 3 toolsListLine))
     = (None, false).
Proof. by vm_compute. Qed.

End Scenarios.

(** ** Configuration and requests together *)

Section Configuration.

Context (JSON_parse : string -> parse_result) (JSON_stringify : json -> string).
Context (BEARER_TOKEN : option string).

(** A header configured through the comma-separated format reaches every
    request: the last pair of the text is found, key and value trimmed, on
    the request of any message and under any session, unless its key is
    [Content-Length] or [Mcp-Session-Id]. *)
Theorem configured_header_sent (raw : string)
    (pairs : list (string * string)) (kv : string * string)
    (jsonRequest : json) (sid : option string) :
  JS.trim raw = JS.joinChar "," (map pairText (pairs ++ [kv])) ->
  Forall acceptedPair (pairs ++ [kv]) ->
  JS.startsWithChar "{" (JS.trim raw) = false ->
  JS.trim (fst kv) <> "Content-Length" ->
  JS.trim (fst kv) <> "Mcp-Session-Id" ->
  request_headers JSON_stringify BEARER_TOKEN
    (parseCustomHeaders JSON_parse raw) jsonRequest sid !! JS.trim (fst kv)
  = Some (JStr (JS.trim (snd kv))).
Proof.
  intros Htext Hall Hfmt H1 H2.
  assert (Hne : pairs ++ [kv] <> []) by (by destruct pairs).
  apply request_headers_custom; [|done|done].
  rewrite (parse_comma JSON_parse raw);
    [|rewrite Htext; by apply joined_pairs_nonempty|done].
  rewrite Htext, (commaHeaders_pairs _ Hne Hall).
  apply fold_setHeader_last.
Qed.

End Configuration.

(** ** More concrete inputs *)

Section MoreScenarios.

Import Sample.

Lemma commaPairs_accepted : Forall acceptedPair commaPairs.
Proof. repeat constructor; by vm_compute. Defined.

Lemma commaFormat_entries_witness : commaEntry "X-API-Key" (JStr "abc123").
Proof.
  apply (commaFormat_entries parse commaText "X-API-Key" (JStr "abc123"));
    reflexivity.
Defined.

Lemma commaFormat_pairs_witness :
  parseCustomHeaders parse commaText
  = {[ "X-API-Key" := JStr "abc123"; "X-Custom" := JStr "value" ]}.
Proof.
  rewrite (commaFormat_pairs parse commaText commaPairs eq_refl);
    [by vm_compute | discriminate | exact commaPairs_accepted | reflexivity].
Defined.

Lemma commaFormat_without_colon_witness :
  commaHeaders "k:a,b" = commaHeaders "k:a"
  /\ commaHeaders "b,k:a" = commaHeaders "k:a".
Proof. exact (commaFormat_without_colon "k:a" "b" eq_refl). Defined.

Lemma jsonFormat_headers_witness :
  parseCustomHeaders parse jsonText !! "n" = Some (JNum 5)
  /\ parseCustomHeaders parse notJson = commaHeaders notJson.
Proof.
  split.
  - exact (proj1 (jsonFormat_headers parse jsonText eq_refl)
             [("a", JStr "b"); ("n", JNum 5)] eq_refl "n").
  - exact (proj2 (jsonFormat_headers parse notJson eq_refl) eq_refl).
Defined.

Lemma configured_header_sent_witness :
  request_headers stringify (Some "jwt") (parseCustomHeaders parse commaText)
    toolsList (Some "S1") !! "X-Custom"
  = Some (JStr "value").
Proof.
  apply (configured_header_sent parse stringify (Some "jwt") commaText
           [("X-API-Key", " abc123")] ("X-Custom", "value") toolsList (Some "S1"));
    [reflexivity | exact commaPairs_accepted | reflexivity
     | discriminate | discriminate].
Defined.

Lemma session_consistent_witness :
  sessionConsistent
    (snd (run None ∅ [Response 404 handsOut ""; Response 500 handsOut ""]
            (Some "S1") 3 toolsListLine)).
Proof.
  apply (session_consistent parse stringify None ∅ scripted 3 toolsListLine).
  split; [reflexivity | discriminate].
Defined.

Lemma line_reply_count_witness :
  (errorReplies
     (snd (run None ∅ [Response 404 ∅ ""; Response 500 ∅ ""] (Some "S1") 3
             toolsListLine)) + 0
   = 0 + recoveries
           (snd (run None ∅ [Response 404 ∅ ""; Response 500 ∅ ""] (Some "S1") 3
                   toolsListLine)) + 1)%nat.
Proof.
  assert (Hne : JS.trim toolsListLine <> "") by discriminate.
  exact (proj2
           (line_reply_count parse stringify None ∅ scripted 3 toolsListLine
              (start (Some "S1") [Response 404 ∅ ""; Response 500 ∅ ""])
              toolsList Hne eq_refl eq_refl)
           (JsError "HTTP 500" (Some (JNum (-32000))) (Some 500)) eq_refl).
Defined.


Lemma recovery_succeeds_witness :
  makeRequest parse stringify None ∅ scripted 2 toolsList
    (start (Some "S1")
       [Response 404 ∅ ""; Response 200 handsOut lineA; Response 200 ∅ lineB])
  = (Resolved,
     World (Some "S2") true [Forwarded lineA; Forwarded lineB]
       [HttpRequest (request_headers stringify None ∅ toolsList (Some "S1")) toolsList;
        HttpRequest (request_headers stringify None ∅ initRequest None) initRequest;
        HttpRequest (request_headers stringify None ∅ toolsList (Some "S2")) toolsList]
       1%nat []).
Proof.
  exact (proj1
           (recovery_succeeds parse stringify None ∅ scripted 0 toolsList
              (start (Some "S1")
                 [Response 404 ∅ ""; Response 200 handsOut lineA;
                  Response 200 ∅ lineB])
              ∅ handsOut ∅ "" lineA lineB 200 200
              [Response 200 handsOut lineA; Response 200 ∅ lineB]
              [Response 200 ∅ lineB] []
              eq_refl eq_refl eq_refl eq_refl eq_refl eq_refl eq_refl)).
Defined.


Lemma dispatch_iff_witness :
  sent (snd (run None ∅ [Response 200 ∅ ""] None 1
               (request_line "tools/list" "null")))
  = []
  /\ exists more : list http_request,
       sent (snd (run None ∅ [Response 200 ∅ ""] None 1 toolsListLine))
       = [] ++ HttpRequest (request_headers stringify None ∅ toolsList None) toolsList
               :: more.
Proof.
  assert (Hne : JS.trim toolsListLine <> "") by discriminate.
  split.
  - exact (proj1
             (proj1
                (dispatch_iff parse stringify None ∅ scripted 0
                   (request_line "tools/list" "null")
                   (start None [Response 200 ∅ ""]))
                (or_intror eq_refl))).
  - exact (proj2
             (dispatch_iff parse stringify None ∅ scripted 0 toolsListLine
                (start None [Response 200 ∅ ""]))
             toolsList Hne eq_refl eq_refl).
Defined.

Lemma undispatched_reply_witness :
  (parse "null" = Parsed JNull
   /\ run None ∅ [] None 1 "null" = (Threw, start None []))
  \/ exists (code : Z) (msg : string),
       (code = -32700 /\ parses parse "null" = false
        \/ code = -32600 /\ parses parse "null" = true)
       /\ run None ∅ [] None 1 "null"
          = (Done, sendError (JNum code) msg (Some (lineId parse "null"))
                     (start None [])).
Proof.
  assert (Hne : JS.trim "null" <> "") by discriminate.
  exact (undispatched_reply parse stringify None ∅ scripted 1 "null"
           (start None []) Hne eq_refl).
Defined.

Lemma legacy_error_reply_witness :
  run_legacy ∅ [Response 500 ∅ "oops"] zeroIdLine
  = (Done,
     World None false
       [ErrorReply (JNum (-32000)) "HTTP 500: oops" JNull]
       [HttpRequest (legacy_headers stringify ∅ zeroIdRequest) zeroIdRequest]
       0%nat []).
Proof.
  assert (Hne : JS.trim zeroIdLine <> "") by discriminate.
  assert (Hv : zeroIdRequest <> JNull) by discriminate.
  exact (legacy_error_reply parse stringify ∅ scripted zeroIdLine
           (start None [Response 500 ∅ "oops"]) zeroIdRequest 500 ∅ "oops" []
           Hne eq_refl Hv eq_refl eq_refl).
Defined.


Lemma notification_fails_directly_witness :
  stdout (snd (run None ∅ [Response 500 ∅ notJson] (Some "S1") 1 initializedLine))
  = []
  /\ stdout (snd (run None ∅ [Response 500 ∅ notJson] (Some "S1") 1
                    (notification_line "initialize")))
     = [].
Proof.
  assert (Hne : JS.trim initializedLine <> "") by discriminate.
  assert (Hne' : JS.trim (notification_line "initialize") <> "") by discriminate.
  split.
  - exact (proj2
             (notification_fails_directly parse stringify None ∅ scripted 0
                initializedLine (start (Some "S1") [Response 500 ∅ notJson])
                (JObj [("jsonrpc", JStr "2.0");
                       ("method", JStr "notifications/initialized")])
                (Response 500 ∅ notJson) [] (httpError parse 500 notJson)
                Hne eq_refl eq_refl eq_refl eq_refl eq_refl eq_refl)).
  - exact (proj2
             (notification_fails_directly parse stringify None ∅ scripted 0
                (notification_line "initialize")
                (start (Some "S1") [Response 500 ∅ notJson])
                (JObj [("jsonrpc", JStr "2.0"); ("method", JStr "initialize")])
                (Response 500 ∅ notJson) [] (httpError parse 500 notJson)
                Hne' eq_refl eq_refl eq_refl eq_refl eq_refl eq_refl)).
Defined.



End MoreScenarios.
